(** * Timelog: header classification, log-context detection, navigation and
  prefix insertion of the obsidian-time-log plugin (main.ts).

  The plugin's methods are embedded as pure functions over an explicit
  editor state (the host's line buffer), an explicit plugin state
  (settings, daily-note format, last replacement instant) and an explicit
  clock reading.  JavaScript strings are sequences of UTF-16 code units.
  The date library (moment) is a collaborator: the plugin code is stated
  over the [DateFormatter] interface, and [Moment] gives one model of it
  for patterns made of fixed-width numeric tokens. *)

From Stdlib Require Import String Ascii.
From Stdlib Require DecimalString.
From Stdlib Require Import List ZArith NArith Lia Bool Permutation.
Import ListNotations.

(* ===================================================================== *)
(** ** JavaScript strings *)
(* ===================================================================== *)

Module JS.

(** A string is the list of its UTF-16 code units. *)
Definition jsstring := list N.

(** ASCII literals. *)
Definition str (s : string) : jsstring :=
  map N_of_ascii (list_ascii_of_string s).

(** LineTerminator code units: LF, CR, LS, PS. *)
Definition isLineTerminator (c : N) : bool :=
  ((c =? 10) || (c =? 13) || (c =? 8232) || (c =? 8233))%N.

(** WhiteSpace and LineTerminator, the set removed by [trim] and matched
    by the regular-expression class [\s]. *)
Definition isWhiteSpace (c : N) : bool :=
  ((c =? 9) || (c =? 11) || (c =? 12) || (c =? 32) || (c =? 160)
   || (c =? 5760) || ((8192 <=? c) && (c <=? 8202)) || (c =? 8239)
   || (c =? 8287) || (c =? 12288) || (c =? 65279))%N
  || isLineTerminator c.

Fixpoint dropWhile (p : N -> bool) (s : jsstring) : jsstring :=
  match s with
  | [] => []
  | c :: rest => if p c then dropWhile p rest else s
  end.

Definition trimStart (s : jsstring) : jsstring := dropWhile isWhiteSpace s.

Definition trimEnd (s : jsstring) : jsstring :=
  rev (dropWhile isWhiteSpace (rev s)).

(** [s.trim()] *)
Definition trim (s : jsstring) : jsstring := trimEnd (trimStart s).

(** [s.startsWith(p)] *)
Fixpoint startsWith (s p : jsstring) {struct p} : bool :=
  match p, s with
  | [], _ => true
  | _ :: _, [] => false
  | a :: p', c :: s' => (c =? a)%N && startsWith s' p'
  end.

(** [s.indexOf(c)] for a one-unit needle: the first index, or -1. *)
Fixpoint indexOf (s : jsstring) (c : N) : Z :=
  match s with
  | [] => -1
  | d :: rest =>
      if (d =? c)%N then 0
      else let r := indexOf rest c in
           if (r <? 0)%Z then -1 else (r + 1)%Z
  end.

(** [s.replace(/c/g, '')] for a one-unit pattern: every occurrence goes. *)
Definition removeAll (c : N) (s : jsstring) : jsstring :=
  filter (fun d => negb (d =? c)%N) s.

(** [s.substring(0, n)] *)
Definition substring0 (n : nat) (s : jsstring) : jsstring := firstn n s.

(** [s.split(c)[0]]: the text before the first [c], all of [s] without. *)
Fixpoint splitHead (c : N) (s : jsstring) : jsstring :=
  match s with
  | [] => []
  | d :: rest => if (d =? c)%N then [] else d :: splitHead c rest
  end.

(** The pieces of [s] between line feeds; never empty. *)
Fixpoint splitLines (s : jsstring) : list jsstring :=
  match s with
  | [] => [[]]
  | c :: rest =>
      if (c =? 10)%N then [] :: splitLines rest
      else match splitLines rest with
           | l :: ls => (c :: l) :: ls
           | [] => [[c]]
           end
  end.

Definition hasLineFeed (s : jsstring) : bool :=
  existsb (fun c => (c =? 10)%N) s.

End JS.

Import JS.

Definition chHash : N := 35.    (* # *)
Definition chStar : N := 42.    (* * *)
Definition chHyphen : N := 45.  (* - *)
Definition chPipe : N := 124.   (* | *)
Definition chTab : N := 9.
Definition chOpen : N := 91.    (* [ *)
Definition chClose : N := 93.   (* ] *)

(* ===================================================================== *)
(** ** The Line Buffer (the host editor) *)
(* ===================================================================== *)

Module LineBuffer.

Record Position := mkPos { pos_line : nat; pos_ch : nat }.

(** Modelled from the spec: the Line Buffer is the host's editor, which is
    not part of the plugin's sources.  This is what the plugin observes of
    it: the lines of the document, the cursor, and the last range handed to
    [scrollIntoView]. *)
Record Editor := mkEditor {
  doc : list jsstring;
  cursor : Position;
  viewport : option (Position * Position)
}.

Definition lineCount (ed : Editor) : nat := List.length (doc ed).

(** Modelled from the spec: [editor.getLine(n)] of the Line Buffer.  The
    plugin only asks for lines below [lineCount]; the empty text stands for
    the others. *)
Definition getLine (ed : Editor) (n : nat) : jsstring := nth n (doc ed) [].

Definition getCursor (ed : Editor) : Position := cursor ed.

Definition setCursor (p : Position) (ed : Editor) : Editor :=
  mkEditor (doc ed) p (viewport ed).

Definition scrollIntoView (from to : Position) (ed : Editor) : Editor :=
  mkEditor (doc ed) (cursor ed) (Some (from, to)).

(** Modelled from the spec: a position of the Line Buffer is a line and a
    column inside that line's text; here text [text] is put into [s] at
    column [ch], and a column past the end of the line is the end of the
    line. *)
Definition insertAt (ch : nat) (text s : jsstring) : jsstring :=
  let off := Nat.min ch (List.length s) in
  firstn off s ++ text ++ skipn off s.

(** Modelled from the spec: [editor.replaceRange(text, {line, ch})] of the
    Line Buffer with no [to], an insertion at one position.  Line feeds of
    the inserted text start new lines.  The plugin sets the cursor itself
    after every call, so the cursor is left where it was here. *)
Definition replaceRange (text : jsstring) (p : Position) (ed : Editor)
  : Editor :=
  let n := pos_line p in
  mkEditor
    (firstn n (doc ed)
       ++ splitLines (insertAt (pos_ch p) text (getLine ed n))
       ++ skipn (S n) (doc ed))
    (cursor ed) (viewport ed).

(** The cursor of a real editor is on a line of the document. *)
Definition wellFormed (ed : Editor) : Prop :=
  pos_line (cursor ed) < lineCount ed.

End LineBuffer.

Import LineBuffer.

(* ===================================================================== *)
(** ** The DateFormatter collaborator *)
(* ===================================================================== *)

(** What the plugin asks of moment:
    - [momentStrict text format] is [moment(text, format, true)], [None]
      when the result is not [isValid()];
    - [momentIsValid text format] is [moment(text, format).isValid()], the
      forgiving parse;
    - [momentFormat now format] is [moment().format(format)] at the instant
      [now] (milliseconds), [None] when it throws;
    - [valueOf] is the instant of a parsed date, which [isAfter] compares. *)
Class DateFormatter := {
  ParsedDate : Type;
  valueOf : ParsedDate -> Z;
  momentStrict : jsstring -> jsstring -> option ParsedDate;
  momentIsValid : jsstring -> jsstring -> bool;
  momentFormat : Z -> jsstring -> option jsstring
}.

(** [a.isAfter(b)] *)
Definition isAfter {DF : DateFormatter} (a b : ParsedDate) : bool :=
  (valueOf b <? valueOf a)%Z.

(** Modelled from the spec: moment is a library outside the plugin's
    sources.  This model covers patterns made of the fixed-width numeric
    tokens YYYY, MM, DD, HH, mm, ss and of literal characters; instants are
    taken in UTC. *)
Module Moment.

Inductive token := YYYY | MM | DD | HH | Tmm | Tss | Lit (c : N).

Fixpoint tokenizeFrom (skip : nat) (fmt : jsstring) : list token :=
  match fmt with
  | [] => []
  | c :: rest =>
      match skip with
      | S k => tokenizeFrom k rest
      | O =>
          if startsWith fmt (str "YYYY") then YYYY :: tokenizeFrom 3 rest
          else if startsWith fmt (str "MM") then MM :: tokenizeFrom 1 rest
          else if startsWith fmt (str "DD") then DD :: tokenizeFrom 1 rest
          else if startsWith fmt (str "HH") then HH :: tokenizeFrom 1 rest
          else if startsWith fmt (str "mm") then Tmm :: tokenizeFrom 1 rest
          else if startsWith fmt (str "ss") then Tss :: tokenizeFrom 1 rest
          else Lit c :: tokenizeFrom 0 rest
      end
  end.

Definition tokenize (fmt : jsstring) : list token := tokenizeFrom 0 fmt.

(** The calendar fields a parse has filled in; months count from 1. *)
Record fields := mkFields {
  f_year : option Z; f_month : option Z; f_day : option Z;
  f_hour : option Z; f_minute : option Z; f_second : option Z
}.

Definition noFields : fields := mkFields None None None None None None.

Record date := mkDate {
  year : Z; month : Z; day : Z; hour : Z; minute : Z; second : Z
}.

Definition isDigit (c : N) : bool := ((48 <=? c) && (c <=? 57))%N.

Definition toInt (ds : jsstring) : Z :=
  fold_left (fun acc d => (acc * 10 + (Z.of_N d - 48))%Z) ds 0%Z.

(** Two-digit years: above 68 is 19xx, else 20xx. *)
Definition parseTwoDigitYear (n : Z) : Z :=
  (n + (if 68 <? n then 1900 else 2000))%Z.

Definition setField (t : token) (ds : jsstring) (f : fields) : fields :=
  let v := toInt ds in
  match t with
  | YYYY =>
      let y := if Nat.eqb (List.length ds) 2 then parseTwoDigitYear v else v in
      mkFields (Some y) (f_month f) (f_day f) (f_hour f) (f_minute f)
        (f_second f)
  | MM => mkFields (f_year f) (Some v) (f_day f) (f_hour f) (f_minute f)
            (f_second f)
  | DD => mkFields (f_year f) (f_month f) (Some v) (f_hour f) (f_minute f)
            (f_second f)
  | HH => mkFields (f_year f) (f_month f) (f_day f) (Some v) (f_minute f)
            (f_second f)
  | Tmm => mkFields (f_year f) (f_month f) (f_day f) (f_hour f) (Some v)
             (f_second f)
  | Tss => mkFields (f_year f) (f_month f) (f_day f) (f_hour f) (f_minute f)
             (Some v)
  | Lit _ => f
  end.

Definition width (t : token) : nat :=
  match t with YYYY => 4 | Lit _ => 1 | _ => 2 end.

(** Strict parse: every token matches where the previous one ended, the
    numeric ones with exactly their width in digits, and no input is left. *)
Fixpoint parseStrictTokens (ts : list token) (s : jsstring) (f : fields)
  : option fields :=
  match ts with
  | [] => match s with [] => Some f | _ :: _ => None end
  | Lit c :: ts' =>
      match s with
      | d :: s' => if (d =? c)%N then parseStrictTokens ts' s' f else None
      | [] => None
      end
  | t :: ts' =>
      let ds := firstn (width t) s in
      if Nat.eqb (List.length ds) (width t) && forallb isDigit ds
      then parseStrictTokens ts' (skipn (width t) s) (setField t ds f)
      else None
  end.

(** The leading digits of [s], at most [max] of them, and what follows. *)
Fixpoint takeDigits (max : nat) (s : jsstring) : jsstring * jsstring :=
  match max, s with
  | S k, c :: rest =>
      if isDigit c
      then let (ds, r) := takeDigits k rest in (c :: ds, r)
      else ([], s)
  | _, _ => ([], s)
  end.

(** The leftmost run of one to [max] digits of [s], and what follows. *)
Fixpoint findDigits (max : nat) (s : jsstring)
  : option (jsstring * jsstring) :=
  match s with
  | [] => None
  | c :: rest =>
      if isDigit c then Some (takeDigits max s) else findDigits max rest
  end.

(** What follows the first [c] of [s]. *)
Fixpoint skipPast (c : N) (s : jsstring) : option jsstring :=
  match s with
  | [] => None
  | d :: rest => if (d =? c)%N then Some rest else skipPast c rest
  end.

(** Forgiving parse: a token matches at the leftmost place it can in the
    remaining input, numeric ones with one digit up to their width; a token
    that matches nowhere is passed over.  The flag records whether any
    numeric token matched. *)
Fixpoint parseForgivingTokens (ts : list token) (s : jsstring) (f : fields)
  (matched : bool) : fields * bool :=
  match ts with
  | [] => (f, matched)
  | Lit c :: ts' =>
      match skipPast c s with
      | Some s' => parseForgivingTokens ts' s' f matched
      | None => parseForgivingTokens ts' s f matched
      end
  | t :: ts' =>
      match findDigits (width t) s with
      | Some (ds, s') => parseForgivingTokens ts' s' (setField t ds f) true
      | None => parseForgivingTokens ts' s f matched
      end
  end.

Definition isLeapYear (y : Z) : bool :=
  ((y mod 4 =? 0) && negb (y mod 100 =? 0) || (y mod 400 =? 0))%Z.

Definition daysInMonth (y m : Z) : Z :=
  if (m =? 2)%Z then (if isLeapYear y then 29 else 28)%Z
  else if ((m =? 4) || (m =? 6) || (m =? 9) || (m =? 11))%Z then 30%Z
  else 31%Z.

Definition orElse (o : option Z) (d : Z) : Z :=
  match o with Some v => v | None => d end.

Definition isNone (o : option Z) : bool :=
  match o with Some _ => false | None => true end.

(** Fields a parse left open: the leading ones (year, then month, then day)
    come from the current day; the others are the first of their range. *)
Definition withDefaults (today : date) (f : fields) : date :=
  let noY := isNone (f_year f) in
  let noYM := noY && isNone (f_month f) in
  let noYMD := noYM && isNone (f_day f) in
  mkDate (orElse (f_year f) (year today))
         (orElse (f_month f) (if noY then month today else 1%Z))
         (orElse (f_day f) (if noYM then day today else 1%Z))
         (orElse (f_hour f) 0%Z) (orElse (f_minute f) 0%Z)
         (orElse (f_second f) 0%Z).

(** No field out of its range; hour 24 stands only with zero minutes and
    seconds. *)
Definition inRange (d : date) : bool :=
  ((1 <=? month d) && (month d <=? 12)
   && (1 <=? day d) && (day d <=? daysInMonth (year d) (month d))
   && (0 <=? hour d) && (hour d <=? 24)
   && (negb (hour d =? 24) || ((minute d =? 0) && (second d =? 0)))
   && (0 <=? minute d) && (minute d <=? 59)
   && (0 <=? second d) && (second d <=? 59))%Z.

Definition parseStrict (today : date) (text format : jsstring)
  : option date :=
  match parseStrictTokens (tokenize format) text noFields with
  | Some f => let d := withDefaults today f in
              if inRange d then Some d else None
  | None => None
  end.

Definition parseIsValid (today : date) (text format : jsstring) : bool :=
  let (f, matched) :=
    parseForgivingTokens (tokenize format) text noFields false in
  matched && inRange (withDefaults today f).

(** Days from 1970-01-01 to the civil date [y]-[m]-[d]. *)
Definition daysFromCivil (y m d : Z) : Z :=
  let y' := if (m <=? 2)%Z then (y - 1)%Z else y in
  let era := (y' / 400)%Z in
  let yoe := (y' - era * 400)%Z in
  let mp := if (2 <? m)%Z then (m - 3)%Z else (m + 9)%Z in
  let doy := ((153 * mp + 2) / 5 + d - 1)%Z in
  let doe := (yoe * 365 + yoe / 4 - yoe / 100 + doy)%Z in
  (era * 146097 + doe - 719468)%Z.

Definition dateValue (d : date) : Z :=
  (daysFromCivil (year d) (month d) (day d) * 86400000
   + hour d * 3600000 + minute d * 60000 + second d * 1000)%Z.

(** The civil date and time of the instant [ms]. *)
Definition dateOfInstant (ms : Z) : date :=
  let days := (ms / 86400000)%Z in
  let msOfDay := (ms mod 86400000)%Z in
  let z := (days + 719468)%Z in
  let era := (z / 146097)%Z in
  let doe := (z - era * 146097)%Z in
  let yoe := ((doe - doe / 1460 + doe / 36524 - doe / 146096) / 365)%Z in
  let doy := (doe - (365 * yoe + yoe / 4 - yoe / 100))%Z in
  let mp := ((5 * doy + 2) / 153)%Z in
  let d := (doy - (153 * mp + 2) / 5 + 1)%Z in
  let m := if (mp <? 10)%Z then (mp + 3)%Z else (mp - 9)%Z in
  let y := (yoe + era * 400 + (if (m <=? 2)%Z then 1 else 0))%Z in
  mkDate y m d (msOfDay / 3600000) (msOfDay / 60000 mod 60)
    (msOfDay / 1000 mod 60).

(** [n] in [w] decimal digits, zero-padded. *)
Fixpoint padded (w : nat) (n : Z) : jsstring :=
  match w with
  | O => []
  | S k => padded k (n / 10) ++ [Z.to_N (n mod 10 + 48)]
  end.

Definition formatToken (d : date) (t : token) : jsstring :=
  match t with
  | YYYY => padded 4 (year d)
  | MM => padded 2 (month d)
  | DD => padded 2 (day d)
  | HH => padded 2 (hour d)
  | Tmm => padded 2 (minute d)
  | Tss => padded 2 (second d)
  | Lit c => [c]
  end.

Definition format (now : Z) (fmt : jsstring) : option jsstring :=
  Some (List.concat (map (formatToken (dateOfInstant now)) (tokenize fmt))).

(** The model as a [DateFormatter], on the day of the instant [now]. *)
Definition formatter (now : Z) : DateFormatter :=
  {| ParsedDate := date;
     valueOf := dateValue;
     momentStrict := parseStrict (dateOfInstant now);
     momentIsValid := parseIsValid (dateOfInstant now);
     momentFormat := format |}.

End Moment.

(* ===================================================================== *)
(** ** The plugin *)
(* ===================================================================== *)

Record TimelogSettings := mkSettings {
  replacementInterval : Z;
  useList : bool;
  logFormat : jsstring;
  debounceMs : Z
}.

Definition DEFAULT_SETTINGS : TimelogSettings :=
  {| replacementInterval := 30;
     debounceMs := 500;
     useList := false;
     logFormat := str "HH:mm" |}.

Definition DEFAULT_HEADER_FORMAT : jsstring := str "YYYY-MM-DD".

(** The fields of the plugin object that its logic reads and writes;
    [lastReplacement] is an instant in milliseconds. *)
Record TimelogPlugin := mkPlugin {
  settings : TimelogSettings;
  dailyNoteFormat : jsstring;
  lastReplacement : option Z
}.

(** [s.replace(/^#+\s*/, '')] on a text that starts with [#]: the heading
    markers go, then the white space after them. *)
Definition stripHeadingMarkers (s : jsstring) : jsstring :=
  match s with
  | c :: _ =>
      if (c =? chHash)%N
      then dropWhile isWhiteSpace (dropWhile (fun d => (d =? chHash)%N) s)
      else s
  | [] => s
  end.

(** The group of [/(.+?)\]\]/] matched at the start of [s]: the shortest
    non-empty run without line terminators that [ ]] ] follows. *)
Fixpoint linkBody (s : jsstring) : option jsstring :=
  match s with
  | [] => None
  | c :: rest =>
      if isLineTerminator c then None
      else if startsWith rest (str "]]") then Some [c]
      else option_map (cons c) (linkBody rest)
  end.

(** Group 1 of [s.match(/\[\[(.+?)\]\]/)], the leftmost match. *)
Fixpoint linkMatch (s : jsstring) : option jsstring :=
  match s with
  | [] => None
  | _ :: rest =>
      match (if startsWith s (str "[[") then linkBody (skipn 2 s)
             else None) with
      | Some body => Some body
      | None => linkMatch rest
      end
  end.

Section Plugin.

Context {DF : DateFormatter}.

Definition extractHeaderDate (this : TimelogPlugin) (line : jsstring)
  : option ParsedDate :=
  let trimmed := trim line in
  if negb (startsWith trimmed [chHash]) then None
  else
    let content := trim (stripHeadingMarkers trimmed) in
    let linkContent :=
      match linkMatch content with
      | Some inner => inner
      | None => content
      end in
    let dateText := splitHead chPipe linkContent in
    momentStrict dateText (dailyNoteFormat this).

Definition isLogHeader (this : TimelogPlugin) (line : jsstring) : bool :=
  match extractHeaderDate this line with
  | Some _ => true
  | None => false
  end.

Definition isNormalHeader (line : jsstring) : bool :=
  startsWith line [chHash].

(** [line.replace(/^[-\s]/g, '')]: the pattern has no quantifier and is
    anchored, so at most the first code unit goes. *)
Definition stripLeadingMark (line : jsstring) : jsstring :=
  match line with
  | c :: rest => if (c =? chHyphen)%N || isWhiteSpace c then rest else line
  | [] => []
  end.

Definition isLoggedLine (this : TimelogPlugin) (line : jsstring) : bool :=
  let l :=
    substring0 (List.length (logFormat (settings this)))
      (removeAll chStar (stripLeadingMark line)) in
  momentIsValid l (logFormat (settings this)).

(** Determine if last replacement run in past X seconds. *)
Definition isWithinInterval (this : TimelogPlugin) (now : Z) : bool :=
  let interval := replacementInterval (settings this) in
  match lastReplacement this with
  | Some last => if (now - last <? interval * 1000)%Z then false else true
  | None => true
  end.

(** The loop [while (currentLine-- > 0)] of [shouldInsertLine]. *)
Fixpoint lookAbove (this : TimelogPlugin) (editor : Editor)
  (currentLine : nat) : bool :=
  match currentLine with
  | O => false
  | S above =>
      let line := getLine editor above in
      if isLogHeader this line then true
      else if isNormalHeader line then false
      else lookAbove this editor above
  end.

(** The block of [shouldInsertLine] under [if (this.settings.useList)]:
    [true] when the block returns false from the detector.  The test
    [line.indexOf('**') === 0] says that [line] starts with two stars. *)
Definition listModeBlocks (line : jsstring) : bool :=
  let hasList := startsWith (trim line) [chStar] in
  let isNested := startsWith line [chTab] in
  if startsWith line (str "**") then true
  else if isNested then true
  else if negb hasList then true
  else false.

Definition shouldInsertLine (this : TimelogPlugin) (editor : Editor)
  (now : Z) : bool :=
  if negb (isWithinInterval this now) then false
  else
    let currentLine := pos_line (getCursor editor) in
    let line := getLine editor currentLine in
    if isLoggedLine this line then false
    else if useList (settings this) && listModeBlocks line then false
    else lookAbove this editor currentLine.

Definition getFormattedLogPrefix (this : TimelogPlugin) (now : Z)
  : option jsstring :=
  match momentFormat now (logFormat (settings this)) with
  | Some text => Some text
  | None => momentFormat now (logFormat DEFAULT_SETTINGS)
  end.

(** [`**${logPrefix}**: `] *)
Definition logHeaderOf (logPrefix : jsstring) : jsstring :=
  str "**" ++ logPrefix ++ str "**: ".

(** [line.indexOf('*') + 2] *)
Definition insertionOffset (line : jsstring) : Z :=
  (indexOf line chStar + 2)%Z.

(** [None] when formatting throws past the fallback; nothing has been
    changed by then. *)
Definition insertLogLine (this : TimelogPlugin) (editor : Editor) (now : Z)
  : option (TimelogPlugin * Editor) :=
  let cursor := getCursor editor in
  match getFormattedLogPrefix this now with
  | None => None
  | Some logPrefix =>
      let logHeader := logHeaderOf logPrefix in
      let line := getLine editor (pos_line cursor) in
      let offset := insertionOffset line in
      let editor1 :=
        replaceRange logHeader (mkPos (pos_line cursor) (Z.to_nat offset))
          editor in
      let editor2 :=
        setCursor
          (mkPos (pos_line cursor) (pos_ch cursor + List.length logHeader))
          editor1 in
      Some (mkPlugin (settings this) (dailyNoteFormat this) (Some now),
            editor2)
  end.

(** The loop of [findLatestDatedHeader] from line [lineNumber] on, over the
    lines not yet visited; [latest] is [latestLine] with [latestDate]. *)
Fixpoint latestFrom (this : TimelogPlugin) (rest : list jsstring)
  (lineNumber : nat) (latest : option (nat * ParsedDate))
  : option (nat * ParsedDate) :=
  match rest with
  | [] => latest
  | text :: rest' =>
      match extractHeaderDate this text with
      | None => latestFrom this rest' (S lineNumber) latest
      | Some parsed =>
          let replace :=
            match latest with
            | None => true
            | Some (_, latestDate) => isAfter parsed latestDate
            end in
          latestFrom this rest' (S lineNumber)
            (if replace then Some (lineNumber, parsed) else latest)
      end
  end.

Definition findLatestDatedHeader (this : TimelogPlugin) (editor : Editor)
  : option nat :=
  option_map fst (latestFrom this (doc editor) 0 None).

(** The editor callback of the command Jump to Latest Log Header: the
    editor it leaves and the notices it shows. *)
Definition jumpToLatestLogHeader (this : TimelogPlugin) (editor : Editor)
  : Editor * list jsstring :=
  match findLatestDatedHeader this editor with
  | None => (editor, [str "No dated headers found"])
  | Some targetLine =>
      let desiredLine := targetLine + 1 in
      let editor1 :=
        if lineCount editor <=? desiredLine
        then
          let headerText := getLine editor targetLine in
          replaceRange [10%N] (mkPos targetLine (List.length headerText))
            editor
        else editor in
      let cursorLine := Nat.min (targetLine + 1) (lineCount editor1 - 1) in
      let cursor := mkPos cursorLine 0 in
      (scrollIntoView cursor cursor (setCursor cursor editor1), [])
  end.

End Plugin.

(* ===================================================================== *)
(** ** The specification's wording, where it is compared with the code *)
(* ===================================================================== *)

Definition isListMark (c : N) : bool := (c =? chHyphen)%N || isWhiteSpace c.

(** "Strip one leading run of hyphen/whitespace characters". *)
Definition stripLeadingRun (line : jsstring) : jsstring :=
  dropWhile isListMark line.

(** The line starts with at most one hyphen or white-space unit. *)
Definition atMostOneLeadingMark (line : jsstring) : bool :=
  match line with
  | c :: d :: _ => negb (isListMark c && isListMark d)
  | _ => true
  end.

(** [isLoggedLine] as the specification words it: the leading run goes,
    and the parse is strict. *)
Definition isLoggedLine_spec {DF : DateFormatter} (this : TimelogPlugin)
  (line : jsstring) : bool :=
  let l :=
    substring0 (List.length (logFormat (settings this)))
      (removeAll chStar (stripLeadingRun line)) in
  match momentStrict l (logFormat (settings this)) with
  | Some _ => true
  | None => false
  end.

Definition beginsWithWhiteSpace (line : jsstring) : bool :=
  match line with
  | c :: _ => isWhiteSpace c
  | [] => false
  end.

(** The list-mode gate as the specification words it: a list marker is
    a star or a hyphen, and any leading white space is an indentation. *)
Definition listModeBlocks_spec (line : jsstring) : bool :=
  let marked :=
    startsWith (trim line) [chStar] || startsWith (trim line) [chHyphen] in
  negb marked || beginsWithWhiteSpace line || startsWith line (str "**").

(** The insertion offset as the specification words it. *)
Definition insertionOffset_spec (line : jsstring) : Z :=
  if (indexOf line chStar <? 0)%Z then 0%Z
  else (indexOf line chStar + 2)%Z.

(** A code unit that is no white space and none of [#], [|], [[], []]. *)
Definition plainUnit (c : N) : bool :=
  negb (isWhiteSpace c || (c =? chHash)%N || (c =? chPipe)%N
        || (c =? chOpen)%N || (c =? chClose)%N).

(** A date text as it stands in a header: not empty, of plain units. *)
Definition plainDateText (d : jsstring) : bool :=
  match d with
  | [] => false
  | _ :: _ => forallb plainUnit d
  end.

(** A display alias: no line terminator and no closing bracket. *)
Definition plainAlias (a : jsstring) : bool :=
  forallb (fun c => negb (isLineTerminator c || (c =? chClose)%N)) a.


(** No line of [editor] strictly between [j] and [n] is a header of either
    kind. *)
Definition plainBetween {DF : DateFormatter} (this : TimelogPlugin)
  (editor : Editor) (j n : nat) : Prop :=
  forall k, j < k < n ->
    isLogHeader this (getLine editor k) = false
    /\ isNormalHeader (getLine editor k) = false.

(** The plugin with the last replacement forgotten. *)
Definition forgetful (this : TimelogPlugin) : TimelogPlugin :=
  mkPlugin (settings this) (dailyNoteFormat this) None.

(** The instant of the header that [findLatestDatedHeader] returns. *)
Definition latestValue {DF : DateFormatter} (this : TimelogPlugin)
  (editor : Editor) : option Z :=
  match findLatestDatedHeader this editor with
  | Some b => option_map valueOf (extractHeaderDate this (getLine editor b))
  | None => None
  end.

(* ===================================================================== *)
(** ** Fixtures *)
(* ===================================================================== *)

(** Noon of 2024-05-11, in milliseconds. *)
Definition noon : Z := 1715428800000.

Definition plainPlugin : TimelogPlugin :=
  mkPlugin DEFAULT_SETTINGS DEFAULT_HEADER_FORMAT None.

Definition listPlugin : TimelogPlugin :=
  mkPlugin (mkSettings 30 true (str "HH:mm") 500) DEFAULT_HEADER_FORMAT None.

Definition editorOn (lines : list jsstring) (line ch : nat) : Editor :=
  mkEditor lines (mkPos line ch) None.

Definition datedItem (item : jsstring) : list jsstring :=
  [str "## [[2024-05-11]]"; item].

(** The two documents of the ancestry examples, cursor on the item. *)
Definition notesThenDated : Editor :=
  editorOn [str "# Notes"; str "## [[2024-05-11]]"; str "- item"] 2 6.

Definition datedThenNotes : Editor :=
  editorOn [str "## [[2024-05-11]]"; str "# Notes"; str "- item"] 2 6.

(** A plugin whose last replacement was at noon. *)
Definition ratedPlugin : TimelogPlugin :=
  mkPlugin DEFAULT_SETTINGS DEFAULT_HEADER_FORMAT (Some noon).

(** Three dated headers, the latest date twice, in two orders. *)
Definition threeDated : Editor :=
  editorOn [str "## 2024-05-11"; str "## [[2024-06-01]]";
            str "## 2024-06-01"; str "text"] 0 0.

Definition threeDatedReordered : Editor :=
  editorOn [str "## [[2024-06-01]]"; str "## 2024-05-11";
            str "## 2024-06-01"; str "text"] 0 0.

Definition loneHeader : Editor := editorOn [str "## 2024-05-11"] 0 0.

Definition starItem : Editor := editorOn (datedItem (str "* ")) 1 2.

(** Every line of the document is free of line feeds. *)
Definition linesAreLines (ed : Editor) : Prop :=
  Forall (fun l => hasLineFeed l = false) (doc ed).

(* ===================================================================== *)
(** ** The rest of the plugin: status bar, edit events, Start Log Entry *)
(* ===================================================================== *)

(** [String(n)] for an integer below 10^21: its decimal digits, with a
    minus sign when negative. *)
Definition numberToString (n : Z) : jsstring :=
  str (DecimalString.NilZero.string_of_int (Z.to_int n)).

(** Modelled from the spec: the status surface is an element of the host,
    of which the plugin sets [style.display] and the text. *)
Record StatusBarItem := mkStatusBar {
  style_display : jsstring;
  bar_text : jsstring
}.


(** The cursor column lies within the text of the cursor line. *)
Definition cursorInLine (ed : Editor) : Prop :=
  pos_ch (cursor ed) <= List.length (getLine ed (pos_line (cursor ed))).

Section PluginRest.

Context {DF : DateFormatter}.

(** The loop of [hasDatedHeader] over the lines not yet visited. *)
Fixpoint hasDatedFrom (this : TimelogPlugin) (rest : list jsstring) : bool :=
  match rest with
  | [] => false
  | text :: rest' =>
      match extractHeaderDate this text with
      | Some _ => true
      | None => hasDatedFrom this rest'
      end
  end.

Definition hasDatedHeader (this : TimelogPlugin) (editor : Editor) : bool :=
  hasDatedFrom this (doc editor).

(** [`Logging active ${this.settings.replacementInterval}s`] *)
Definition statusLabel (this : TimelogPlugin) : jsstring :=
  str "Logging active "
    ++ numberToString (replacementInterval (settings this)) ++ str "s".

(** [updateStatusBar(editor?)]: [statusBarItemEl] is the element, if it
    has been created; [workspaceEditor] is what [getActiveEditor()]
    returns. *)
Definition updateStatusBar (this : TimelogPlugin)
  (statusBarItemEl : option StatusBarItem) (editor : option Editor)
  (workspaceEditor : option Editor) : option StatusBarItem :=
  match statusBarItemEl with
  | None => None
  | Some el =>
      let activeEditor :=
        match editor with
        | Some e => Some e
        | None => workspaceEditor
        end in
      match activeEditor with
      | None => Some (mkStatusBar (str "none") (bar_text el))
      | Some ed =>
          if negb (hasDatedHeader this ed)
          then Some (mkStatusBar (str "none") (bar_text el))
          else Some (mkStatusBar [] (statusLabel this))
      end
  end.

(** [onEditorChange(editor, view)]: the status bar it leaves, and the
    plugin and editor it leaves, [None] when [insertLogLine] throws. *)
Definition onEditorChange (this : TimelogPlugin)
  (statusBarItemEl : option StatusBarItem) (editor : Editor) (now : Z)
  : option StatusBarItem * option (TimelogPlugin * Editor) :=
  let bar := updateStatusBar this statusBarItemEl (Some editor) None in
  if negb (shouldInsertLine this editor now) then (bar, Some (this, editor))
  else (bar, insertLogLine this editor now).


End PluginRest.

(** The conditions under which [shouldInsertLine] answers true, spelled
    out: the rate limit is over, the cursor line is not logged, the list
    mode does not hold it back, and some line above is a dated header
    with no header between it and the cursor. *)
Definition insertionContext {DF : DateFormatter} (this : TimelogPlugin)
  (editor : Editor) (now : Z) : Prop :=
  let cursorLine := pos_line (cursor editor) in
  let line := getLine editor cursorLine in
  isWithinInterval this now = true
  /\ isLoggedLine this line = false
  /\ (useList (settings this) = true -> listModeBlocks line = false)
  /\ exists j, j < cursorLine /\ j < lineCount editor
       /\ extractHeaderDate this (getLine editor j) <> None
       /\ plainBetween this editor j cursorLine.

(* ===================================================================== *)
(** ** An earlier [insertLogLine], which guards the insertion *)
(* ===================================================================== *)

Module Guarded.

Section Guarded.

Context {DF : DateFormatter}.

(** [insertLogLine] of the variant that formats in place and refuses to
    insert into a line with text: the answer of the method, with the
    editor it leaves; [None] when formatting throws past the fallback. *)
Definition insertLogLine (this : TimelogPlugin) (editor : Editor) (now : Z)
  : option (bool * Editor) :=
  let cursor := getCursor editor in
  match getFormattedLogPrefix this now with
  | None => None
  | Some logDate =>
      let logHeader := logHeaderOf logDate in
      let spacing := 2%Z in
      let offset := indexOf (getLine editor (pos_line cursor)) chStar in
      if 2 <? List.length (trim (getLine editor (pos_line cursor)))
      then Some (false, editor)
      else if useList (settings this) && (offset <? 0)%Z
      then Some (false, editor)
      else
        let offset :=
          if (0 <=? offset)%Z then (offset + spacing)%Z else 0%Z in
        let editor1 :=
          replaceRange logHeader
            (mkPos (pos_line cursor) (Z.to_nat offset)) editor in
        Some (true,
              setCursor
                (mkPos (pos_line cursor)
                   (pos_ch cursor + List.length logHeader))
                editor1)
  end.

End Guarded.

End Guarded.

(* ===================================================================== *)
(** ** The first plugin of main.ts, which looks for the word log *)
(* ===================================================================== *)

Module Keyword.

Record MyPluginSettings := mkSettings {
  mySetting : jsstring;
  replacementInterval : Z
}.

Definition DEFAULT_SETTINGS : MyPluginSettings :=
  {| mySetting := str "default"; replacementInterval := 5 |}.

Record MyPlugin := mkPlugin {
  settings : MyPluginSettings;
  lastReplacement : option Z
}.

(** [s.includes(needle)] *)
Fixpoint includes (s needle : jsstring) : bool :=
  match s with
  | [] => startsWith [] needle
  | _ :: rest => startsWith s needle || includes rest needle
  end.

Section Runtime.

(** The case mapping and the time text come from the runtime's locale
    data: [toLocaleLowerCase line] is [line.toLocaleLowerCase()], and
    [toLocaleTimeString now] is [new Date().toLocaleTimeString('en-US',
    { hour: '2-digit', minute: '2-digit' })] at the instant [now]. *)
Variable toLocaleLowerCase : jsstring -> jsstring.
Variable toLocaleTimeString : Z -> jsstring.

Definition isLogHeader (line : jsstring) : bool :=
  startsWith line [chHash] && includes (toLocaleLowerCase line) (str "log").

Definition isNormalHeader (line : jsstring) : bool :=
  startsWith line [chHash].

(** The loop [while (currentLine-- > 0)] of [isInsideLogConext]. *)
Fixpoint lookAbove (editor : Editor) (currentLine : nat) : bool :=
  match currentLine with
  | O => false
  | S above =>
      let line := getLine editor above in
      if isLogHeader line then true
      else if isNormalHeader line then false
      else lookAbove editor above
  end.

Definition isInsideLogConext (this : MyPlugin) (editor : Editor) (now : Z)
  : bool :=
  let blocked :=
    match lastReplacement this with
    | Some last =>
        (now - last <? replacementInterval (settings this) * 1000)%Z
    | None => false
    end in
  if blocked then false
  else
    let currentLine := pos_line (getCursor editor) in
    let line := getLine editor currentLine in
    if isLogHeader line then false
    else lookAbove editor currentLine.

(** [`- **${logDate}**: `] *)
Definition logHeaderOf (logDate : jsstring) : jsstring :=
  str "- **" ++ logDate ++ str "**: ".

Definition insertLogLine (editor : Editor) (now : Z) : Editor :=
  let cursor := getCursor editor in
  let logDate := toLocaleTimeString now in
  let logHeader := logHeaderOf logDate in
  let editor1 := replaceRange logHeader (mkPos (pos_line cursor) 0) editor in
  setCursor
    (mkPos (pos_line cursor) (pos_ch cursor + List.length logHeader))
    editor1.

Definition onEditorChange (this : MyPlugin) (editor : Editor) (now : Z)
  : MyPlugin * Editor :=
  if isInsideLogConext this editor now
  then (mkPlugin (settings this) (Some now), insertLogLine editor now)
  else (this, editor).

End Runtime.

End Keyword.

(** Fixtures for the first plugin: lower case for ASCII letters, a fixed
    time text, and a plugin that has not inserted yet. *)
Definition asciiLower (s : jsstring) : jsstring :=
  map (fun c => if ((65 <=? c) && (c <=? 90))%N then (c + 32)%N else c) s.

Definition noonText (now : Z) : jsstring := str "12:00 PM".

Definition firstPlugin : Keyword.MyPlugin :=
  Keyword.mkPlugin Keyword.DEFAULT_SETTINGS None.

Definition workLog : Editor :=
  editorOn [str "# Work Log"; str "item"] 1 4.

(* ===================================================================== *)
(** ** Facts about strings and the line buffer *)
(* ===================================================================== *)

Lemma startsWith_unit (s : jsstring) (c : N) :
  startsWith s [c] = true <-> exists rest, s = c :: rest.
Proof.
  destruct s as [|d rest]; simpl.
  - split; [discriminate | intros [r Hr]; discriminate].
  - rewrite andb_true_r, N.eqb_eq. split.
    + intros ->. now exists rest.
    + intros [r Hr]. now inversion Hr.
Qed.

Lemma dropWhile_split (p : N -> bool) (s : jsstring) :
  exists dropped, s = dropped ++ dropWhile p s /\ forallb p dropped = true.
Proof.
  induction s as [|c rest [dropped [Heq Hall]]]; simpl.
  - now exists [].
  - destruct (p c) eqn:Hc.
    + exists (c :: dropped). simpl. rewrite Hc, Hall.
      split; [congruence | reflexivity].
    + now exists [].
Qed.

Lemma dropWhile_head_false (p : N -> bool) (c : N) (rest : jsstring) :
  p c = false -> dropWhile p (c :: rest) = c :: rest.
Proof. intros H. simpl. now rewrite H. Qed.

(** [trimEnd] keeps a prefix of its argument. *)
Lemma trimEnd_prefix (s : jsstring) : exists tail, s = trimEnd s ++ tail.
Proof.
  unfold trimEnd.
  destruct (dropWhile_split isWhiteSpace (rev s)) as [dropped [Heq _]].
  exists (rev dropped).
  rewrite <- rev_app_distr, <- Heq. now rewrite rev_involutive.
Qed.

Lemma indexOf_range (s : jsstring) (c : N) :
  (-1 <= indexOf s c < Z.of_nat (List.length s))%Z.
Proof.
  induction s as [|d rest IH]; simpl List.length; simpl indexOf.
  - lia.
  - destruct (d =? c)%N; [lia|].
    destruct (indexOf rest c <? 0)%Z eqn:E; [lia|].
    apply Z.ltb_ge in E. lia.
Qed.

Lemma indexOf_absent (s : jsstring) (c : N) :
  ~ In c s <-> indexOf s c = (-1)%Z.
Proof.
  induction s as [|d rest IH]; simpl.
  - tauto.
  - destruct (d =? c)%N eqn:Hd.
    + apply N.eqb_eq in Hd. split; [intros H; exfalso; auto | discriminate].
    + apply N.eqb_neq in Hd.
      pose proof (indexOf_range rest c) as R.
      destruct (indexOf rest c <? 0)%Z eqn:E.
      * apply Z.ltb_lt in E. split; [reflexivity|].
        intros _ [H|H]; [congruence|]. apply IH in H; [auto|lia].
      * apply Z.ltb_ge in E. split; [|lia].
        intros H. exfalso. assert (~ In c rest) as H' by tauto.
        apply IH in H'. lia.
Qed.

(** When [c] occurs, [indexOf] is the place of its first occurrence. *)
Lemma indexOf_first (s : jsstring) (c : N) :
  In c s ->
  exists before after,
    s = before ++ c :: after /\ ~ In c before
    /\ indexOf s c = Z.of_nat (List.length before).
Proof.
  induction s as [|d rest IH]; simpl; [tauto|].
  intros Hin. destruct (d =? c)%N eqn:Hd.
  - apply N.eqb_eq in Hd. subst d. exists [], rest. simpl. tauto.
  - apply N.eqb_neq in Hd. destruct Hin as [H|H]; [congruence|].
    destruct (IH H) as [before [after [Heq [Hnot Hidx]]]].
    exists (d :: before), after. simpl. rewrite Hidx.
    destruct (Z.of_nat (List.length before) <? 0)%Z eqn:E.
    + apply Z.ltb_lt in E. lia.
    + repeat split; [congruence | intros [X|X]; auto | lia].
Qed.

Lemma splitLines_single (s : jsstring) :
  hasLineFeed s = false -> splitLines s = [s].
Proof.
  unfold hasLineFeed. induction s as [|c rest IH]; simpl; [reflexivity|].
  destruct (c =? 10)%N; simpl; [discriminate|].
  intros H. now rewrite (IH H).
Qed.

Lemma splitLines_trailing_feed (s : jsstring) :
  hasLineFeed s = false -> splitLines (s ++ [10%N]) = [s; []].
Proof.
  unfold hasLineFeed. induction s as [|c rest IH]; simpl; [reflexivity|].
  destruct (c =? 10)%N; simpl; [discriminate|].
  intros H. now rewrite (IH H).
Qed.

Lemma hasLineFeed_app (s t : jsstring) :
  hasLineFeed (s ++ t) = hasLineFeed s || hasLineFeed t.
Proof. unfold hasLineFeed. apply existsb_app. Qed.

Lemma hasLineFeed_firstn (n : nat) (s : jsstring) :
  hasLineFeed s = false -> hasLineFeed (firstn n s) = false.
Proof.
  intros H. rewrite <- (firstn_skipn n s), hasLineFeed_app in H.
  now apply orb_false_elim in H.
Qed.

Lemma hasLineFeed_skipn (n : nat) (s : jsstring) :
  hasLineFeed s = false -> hasLineFeed (skipn n s) = false.
Proof.
  intros H. rewrite <- (firstn_skipn n s), hasLineFeed_app in H.
  now apply orb_false_elim in H.
Qed.

Lemma getLine_lines (ed : Editor) (n : nat) :
  linesAreLines ed -> hasLineFeed (getLine ed n) = false.
Proof.
  unfold linesAreLines, getLine. intros H.
  destruct (Nat.lt_ge_cases n (List.length (doc ed))) as [Hlt|Hge].
  - rewrite Forall_forall in H. apply H. now apply nth_In.
  - now rewrite nth_overflow.
Qed.

(** Replacing line [n] by one line leaves the others as they are. *)
Lemma nth_replaced (lines : list jsstring) (n i : nat) (new : jsstring) :
  n < List.length lines ->
  nth i (firstn n lines ++ [new] ++ skipn (S n) lines) []
  = if Nat.eqb i n then new else nth i lines [].
Proof.
  intros Hn.
  assert (Hlen : List.length (firstn n lines) = n)
    by (rewrite length_firstn; lia).
  destruct (Nat.eqb_spec i n) as [->|Hne].
  - rewrite app_nth2; rewrite Hlen; [|lia]. now rewrite Nat.sub_diag.
  - destruct (Nat.lt_ge_cases i n) as [Hlt|Hge].
    + rewrite app_nth1 by lia.
      rewrite <- (firstn_skipn n lines) at 2. now rewrite app_nth1 by lia.
    + rewrite app_nth2 by lia. rewrite Hlen.
      destruct (i - n) as [|k] eqn:Hk; [lia|]. simpl.
      rewrite <- (firstn_skipn (S n) lines) at 2.
      assert (Hlen' : List.length (firstn (S n) lines) = S n)
        by (rewrite length_firstn; lia).
      rewrite app_nth2 by lia. rewrite Hlen'. f_equal. lia.
Qed.

Lemma length_replaced (lines : list jsstring) (n : nat) (new : jsstring) :
  n < List.length lines ->
  List.length (firstn n lines ++ [new] ++ skipn (S n) lines)
  = List.length lines.
Proof.
  intros Hn. rewrite !length_app, length_firstn, length_skipn. simpl. lia.
Qed.

(** A line feed put at the end of a line opens an empty line below it. *)
Lemma replaceRange_line_end (ed : Editor) (n : nat) :
  hasLineFeed (getLine ed n) = false ->
  doc (replaceRange [10%N] (mkPos n (List.length (getLine ed n))) ed)
  = firstn n (doc ed) ++ [getLine ed n; []] ++ skipn (S n) (doc ed).
Proof.
  intros Hline. unfold replaceRange, insertAt.
  cbn [doc pos_line pos_ch].
  rewrite Nat.min_id, firstn_all, skipn_all.
  now rewrite splitLines_trailing_feed.
Qed.

Lemma firstn_with_last (lines : list jsstring) (n : nat) :
  S n = List.length lines -> firstn n lines ++ [nth n lines []] = lines.
Proof.
  revert n. induction lines as [|l rest IH]; intros n Hn; [discriminate|].
  destruct n as [|n]; simpl.
  - destruct rest; [reflexivity|discriminate].
  - f_equal. apply IH. simpl in Hn. lia.
Qed.

(* ===================================================================== *)
(** ** The log-context detector *)
(* ===================================================================== *)

Section Detector.

Context {DF : DateFormatter}.

Variable this : TimelogPlugin.
Variable editor : Editor.

(** The scan passes over lines that are no headers. *)
Lemma lookAbove_skip (j n : nat) :
  j <= n ->
  (forall k, j <= k < n ->
     isLogHeader this (getLine editor k) = false
     /\ isNormalHeader (getLine editor k) = false) ->
  lookAbove this editor n = lookAbove this editor j.
Proof.
  induction n as [|n IH]; intros Hle Hplain.
  - now replace j with 0 by lia.
  - destruct (Nat.eq_dec j (S n)) as [->|Hne]; [reflexivity|].
    simpl. destruct (Hplain n) as [Hlog Hnormal]; [lia|].
    rewrite Hlog, Hnormal. apply IH; [lia|].
    intros k Hk. apply Hplain. lia.
Qed.

Lemma lookAbove_dated (j n : nat) :
  j < n -> isLogHeader this (getLine editor j) = true ->
  plainBetween this editor j n ->
  lookAbove this editor n = true.
Proof.
  intros Hlt Hdated Hplain.
  rewrite lookAbove_skip with (j := S j); [|lia|].
  - simpl. now rewrite Hdated.
  - intros k Hk. apply Hplain. lia.
Qed.

Lemma lookAbove_vetoed (j n : nat) :
  j < n -> isLogHeader this (getLine editor j) = false ->
  isNormalHeader (getLine editor j) = true -> plainBetween this editor j n ->
  lookAbove this editor n = false.
Proof.
  intros Hlt Hundated Hnormal Hplain.
  rewrite lookAbove_skip with (j := S j); [|lia|].
  - simpl. now rewrite Hundated, Hnormal.
  - intros k Hk. apply Hplain. lia.
Qed.

Lemma lookAbove_no_header (n : nat) :
  (forall k, k < n ->
     isLogHeader this (getLine editor k) = false
     /\ isNormalHeader (getLine editor k) = false) ->
  lookAbove this editor n = false.
Proof.
  intros Hplain. rewrite lookAbove_skip with (j := 0); [reflexivity|lia|].
  intros k Hk. apply Hplain. lia.
Qed.

(** Once the three earlier checks pass, the detector is the scan. *)
Lemma shouldInsertLine_past_gates (now : Z) :
  let line := getLine editor (pos_line (cursor editor)) in
  isWithinInterval this now = true ->
  isLoggedLine this line = false ->
  useList (settings this) && listModeBlocks line = false ->
  shouldInsertLine this editor now
  = lookAbove this editor (pos_line (cursor editor)).
Proof.
  intros line Hrate Hlogged Hlist. unfold shouldInsertLine, getCursor.
  fold line. now rewrite Hrate, Hlogged, Hlist.
Qed.

(** C1: when the rate-limit, already-logged and list-mode checks all pass,
    [shouldInsertLine] walks the lines from [cursorLine - 1] down to [0]:
    it returns true when the first header met is a dated header, false
    when a line starting with [#] that is not dated is met first, and
    false when no header is met at all. *)
Theorem C1_ancestry_scan (now : Z) :
  let cursorLine := pos_line (cursor editor) in
  let line := getLine editor cursorLine in
  isWithinInterval this now = true ->
  isLoggedLine this line = false ->
  useList (settings this) && listModeBlocks line = false ->
  (forall j, j < cursorLine ->
     extractHeaderDate this (getLine editor j) <> None ->
     plainBetween this editor j cursorLine ->
     shouldInsertLine this editor now = true)
  /\ (forall j, j < cursorLine ->
        extractHeaderDate this (getLine editor j) = None ->
        startsWith (getLine editor j) [chHash] = true ->
        plainBetween this editor j cursorLine ->
        shouldInsertLine this editor now = false)
  /\ ((forall k, k < cursorLine ->
         extractHeaderDate this (getLine editor k) = None
         /\ startsWith (getLine editor k) [chHash] = false) ->
      shouldInsertLine this editor now = false).
Proof.
  intros cursorLine line Hrate Hlogged Hlist.
  rewrite (shouldInsertLine_past_gates now Hrate Hlogged Hlist).
  fold cursorLine. repeat split.
  - intros j Hj Hdated Hplain.
    apply lookAbove_dated with (j := j); [exact Hj| |exact Hplain].
    unfold isLogHeader.
    destruct (extractHeaderDate this (getLine editor j)); congruence.
  - intros j Hj Hundated Hhash Hplain.
    apply lookAbove_vetoed with (j := j);
      [exact Hj| |exact Hhash|exact Hplain].
    unfold isLogHeader. now rewrite Hundated.
  - intros Hnone. apply lookAbove_no_header. intros k Hk.
    destruct (Hnone k Hk) as [Hundated Hhash]. split; [|exact Hhash].
    unfold isLogHeader. now rewrite Hundated.
Qed.

Lemma lookAbove_forgetful (n : nat) :
  lookAbove (forgetful this) editor n = lookAbove this editor n.
Proof.
  induction n as [|n IH]; [reflexivity|].
  simpl. rewrite IH. reflexivity.
Qed.

Lemma shouldInsertLine_unblocked (now : Z) :
  isWithinInterval this now = true ->
  shouldInsertLine this editor now
  = shouldInsertLine (forgetful this) editor now.
Proof.
  intros Hrate. unfold shouldInsertLine. rewrite Hrate.
  rewrite lookAbove_forgetful. reflexivity.
Qed.

(** C5: with a last insertion on record and less than the interval elapsed
    since, [shouldInsertLine] returns false whatever else holds; once the
    interval has elapsed the rate-limit check passes and the detector
    answers as if no insertion were on record (with 30 seconds, 10 seconds
    after still blocks and 31 seconds after no longer does); with no last
    insertion on record the check never blocks. *)
Theorem C5_rate_limit (now : Z) :
  let interval := replacementInterval (settings this) in
  (forall last, lastReplacement this = Some last ->
     (now - last < interval * 1000)%Z ->
     isWithinInterval this now = false
     /\ shouldInsertLine this editor now = false)
  /\ (forall last, lastReplacement this = Some last ->
        (interval * 1000 <= now - last)%Z ->
        isWithinInterval this now = true
        /\ shouldInsertLine this editor now
           = shouldInsertLine (forgetful this) editor now)
  /\ (lastReplacement this = None -> isWithinInterval this now = true)
  /\ (forall last, interval = 30%Z -> lastReplacement this = Some last ->
        (now = last + 10 * 1000)%Z ->
        shouldInsertLine this editor now = false)
  /\ (forall last, interval = 30%Z -> lastReplacement this = Some last ->
        (now = last + 31 * 1000)%Z ->
        isWithinInterval this now = true).
Proof.
  intros interval.
  assert (Hblock : forall last, lastReplacement this = Some last ->
            (now - last < interval * 1000)%Z ->
            isWithinInterval this now = false).
  { intros last Hlast Hlt. unfold isWithinInterval. fold interval.
    rewrite Hlast. apply Z.ltb_lt in Hlt. now rewrite Hlt. }
  assert (Hpass : forall last, lastReplacement this = Some last ->
            (interval * 1000 <= now - last)%Z ->
            isWithinInterval this now = true).
  { intros last Hlast Hge. unfold isWithinInterval. fold interval.
    rewrite Hlast. apply Z.ltb_ge in Hge. now rewrite Hge. }
  repeat split.
  - now apply (Hblock last).
  - unfold shouldInsertLine. now rewrite (Hblock last).
  - now apply (Hpass last).
  - apply shouldInsertLine_unblocked. now apply (Hpass last).
  - intros Hnone. unfold isWithinInterval. now rewrite Hnone.
  - intros last Hi Hlast Hnow. unfold shouldInsertLine.
    rewrite (Hblock last); [reflexivity|exact Hlast|lia].
  - intros last Hi Hlast Hnow. apply (Hpass last); [exact Hlast|lia].
Qed.

End Detector.

(* ===================================================================== *)
(** ** The header navigator *)
(* ===================================================================== *)

Section Navigator.

Context {DF : DateFormatter}.

Variable this : TimelogPlugin.

(** What a run of the scanning loop returns, from its state at entry. *)
Lemma latestFrom_spec (rest : list jsstring) :
  forall (n : nat) (acc : option (nat * ParsedDate)) (b : nat)
         (latest : ParsedDate),
  latestFrom this rest n acc = Some (b, latest) ->
  (forall text d, In text rest -> extractHeaderDate this text = Some d ->
     (valueOf d <= valueOf latest)%Z)
  /\ (forall a da, acc = Some (a, da) -> (valueOf da <= valueOf latest)%Z)
  /\ (acc = Some (b, latest)
      \/ exists k text,
           b = n + k /\ nth_error rest k = Some text
           /\ extractHeaderDate this text = Some latest
           /\ (forall a da, acc = Some (a, da) ->
                 (valueOf da < valueOf latest)%Z)
           /\ (forall j textj dj, j < k -> nth_error rest j = Some textj ->
                 extractHeaderDate this textj = Some dj ->
                 (valueOf dj < valueOf latest)%Z)).
Proof.
  induction rest as [|text rest IH]; intros n acc b latest Hrun.
  - simpl in Hrun. subst acc. repeat split.
    + intros ? ? [].
    + intros a da Ha. inversion Ha. lia.
    + now left.
  - simpl in Hrun.
    destruct (extractHeaderDate this text) as [parsed|] eqn:Hparsed.
    + (* a dated header *)
      set (replace := match acc with
                      | None => true
                      | Some (_, latestDate) => isAfter parsed latestDate
                      end) in Hrun.
      destruct replace eqn:Hreplace.
      * (* the tracked header is replaced *)
        destruct (IH _ _ _ _ Hrun) as [Hbound [Hacc Hfrom]].
        assert (Hnew : (valueOf parsed <= valueOf latest)%Z)
          by (apply (Hacc n); reflexivity).
        assert (Hold : forall a da, acc = Some (a, da) ->
                  (valueOf da < valueOf parsed)%Z).
        { intros a da Ha. subst acc. subst replace. unfold isAfter in Hreplace.
          now apply Z.ltb_lt in Hreplace. }
        split; [|split].
        -- intros t d [<-|Hin] Hd; [|now apply (Hbound t)].
           rewrite Hparsed in Hd. inversion Hd. now subst.
        -- intros a da Ha. specialize (Hold a da Ha). lia.
        -- right.
           destruct Hfrom as [Hsame|[k [t [Hb [Hnth [Ht [Hlt Hearly]]]]]]].
           ++ inversion Hsame. subst b latest. exists 0, text.
              repeat split; [lia|assumption|exact Hold|].
              intros j ? ? Hj. lia.
           ++ exists (S k), t. repeat split; [lia|assumption|assumption| |].
              ** intros a da Ha. specialize (Hold a da Ha).
                 specialize (Hlt n parsed eq_refl). lia.
              ** intros [|j] tj dj Hj Hnthj Hdj.
                 --- simpl in Hnthj. inversion Hnthj. subst tj.
                     rewrite Hparsed in Hdj. inversion Hdj. subst dj.
                     apply (Hlt n). reflexivity.
                 --- apply (Hearly j tj); [lia|assumption|assumption].
      * (* the tracked header stays *)
        destruct acc as [[a da]|]; [|subst replace; discriminate].
        assert (Hle : (valueOf parsed <= valueOf da)%Z).
        { subst replace. unfold isAfter in Hreplace.
          now apply Z.ltb_ge in Hreplace. }
        destruct (IH _ _ _ _ Hrun) as [Hbound [Hacc Hfrom]].
        specialize (Hacc a da eq_refl).
        split; [|split].
        -- intros t d [<-|Hin] Hd; [|now apply (Hbound t)].
           rewrite Hparsed in Hd. inversion Hd. subst. lia.
        -- intros a' da' Ha'. inversion Ha'. subst. exact Hacc.
        -- destruct Hfrom as [Hsame|[k [t [Hb [Hnth [Ht [Hlt Hearly]]]]]]];
             [now left|right].
           exists (S k), t. repeat split; [lia|assumption|assumption| |].
           ** intros a' da' Ha'. inversion Ha'. subst.
              now apply (Hlt a').
           ** intros [|j] tj dj Hj Hnthj Hdj.
              --- simpl in Hnthj. inversion Hnthj. subst tj.
                  rewrite Hparsed in Hdj. inversion Hdj. subst dj.
                  specialize (Hlt a da eq_refl). lia.
              --- apply (Hearly j tj); [lia|assumption|assumption].
    + (* no dated header: the state is kept *)
      destruct (IH _ _ _ _ Hrun) as [Hbound [Hacc Hfrom]].
      split; [|split].
      * intros t d [<-|Hin] Hd; [congruence|now apply (Hbound t)].
      * exact Hacc.
      * destruct Hfrom as [Hsame|[k [t [Hb [Hnth [Ht [Hlt Hearly]]]]]]];
          [now left|right].
        exists (S k), t. repeat split; [lia|assumption|assumption|exact Hlt|].
        intros [|j] tj dj Hj Hnthj Hdj.
        -- simpl in Hnthj. inversion Hnthj. congruence.
        -- apply (Hearly j tj); [lia|assumption|assumption].
Qed.

(** The loop ends without a header exactly when it started without one and
    met none. *)
Lemma latestFrom_none (rest : list jsstring) :
  forall (n : nat) (acc : option (nat * ParsedDate)),
  latestFrom this rest n acc = None <->
  acc = None
  /\ (forall text, In text rest -> extractHeaderDate this text = None).
Proof.
  induction rest as [|text rest IH]; intros n acc; simpl.
  - split; [intros ->; split; [reflexivity|intros ? []] | tauto].
  - destruct (extractHeaderDate this text) as [parsed|] eqn:Hparsed.
    + split.
      * intros Hrun. apply IH in Hrun. destruct Hrun as [Hacc _].
        destruct acc as [[a da]|]; [|discriminate].
        destruct (isAfter parsed da); discriminate.
      * intros [_ Hall]. specialize (Hall text (or_introl eq_refl)).
        congruence.
    + rewrite IH. split; intros [Hacc Hall]; split; auto.
      intros t [<-|Hin]; auto.
Qed.

(** The header found, seen from the document. *)
Lemma findLatestDatedHeader_found (editor : Editor) (b : nat) :
  findLatestDatedHeader this editor = Some b ->
  b < lineCount editor
  /\ exists latest,
       extractHeaderDate this (getLine editor b) = Some latest
       /\ In (getLine editor b) (doc editor)
       /\ (forall text d, In text (doc editor) ->
             extractHeaderDate this text = Some d ->
             (valueOf d <= valueOf latest)%Z)
       /\ (forall j d, j < b ->
             extractHeaderDate this (getLine editor j) = Some d ->
             (valueOf d < valueOf latest)%Z).
Proof.
  unfold findLatestDatedHeader, lineCount, getLine. intros Hfind.
  destruct (latestFrom this (doc editor) 0 None) as [[b' latest]|] eqn:Hrun;
    [|discriminate].
  simpl in Hfind. inversion Hfind. subst b'.
  destruct (latestFrom_spec _ _ _ _ _ Hrun) as [Hbound [_ Hfrom]].
  destruct Hfrom as [Hsame|[k [text [Hb [Hnth [Htext [_ Hearly]]]]]]];
    [discriminate|].
  simpl in Hb. subst k.
  assert (Hlt : b < List.length (doc editor))
    by (apply nth_error_Some; congruence).
  assert (Hline : nth b (doc editor) [] = text)
    by (now apply nth_error_nth).
  split; [exact Hlt|]. exists latest. rewrite Hline.
  repeat split.
  - exact Htext.
  - now apply nth_error_In with (n := b).
  - exact Hbound.
  - intros j d Hj Hd.
    apply (Hearly j (nth j (doc editor) [])); [exact Hj| |exact Hd].
    apply nth_error_nth'. lia.
Qed.

Lemma findLatestDatedHeader_none (editor : Editor) :
  findLatestDatedHeader this editor = None <->
  (forall i, i < lineCount editor ->
     extractHeaderDate this (getLine editor i) = None).
Proof.
  unfold findLatestDatedHeader, lineCount, getLine.
  destruct (latestFrom this (doc editor) 0 None) as [[b latest]|] eqn:Hrun;
    simpl.
  - split; [discriminate|]. intros Hall. exfalso.
    destruct (latestFrom_spec _ _ _ _ _ Hrun) as [_ [_ Hfrom]].
    destruct Hfrom as [Hsame|[k [text [Hb [Hnth [Htext _]]]]]];
      [discriminate|].
    assert (Hlt : k < List.length (doc editor))
      by (apply nth_error_Some; congruence).
    specialize (Hall k Hlt).
    assert (Hline : nth k (doc editor) [] = text)
      by (now apply nth_error_nth).
    rewrite Hline in Hall. congruence.
  - split; [|reflexivity]. intros _ i Hi.
    apply latestFrom_none in Hrun. destruct Hrun as [_ Hall].
    apply Hall. now apply nth_In.
Qed.

Lemma latestValue_found (editor : Editor) (v : Z) :
  latestValue this editor = Some v ->
  (exists text d, In text (doc editor)
     /\ extractHeaderDate this text = Some d /\ valueOf d = v)
  /\ (forall text d, In text (doc editor) ->
        extractHeaderDate this text = Some d -> (valueOf d <= v)%Z).
Proof.
  unfold latestValue. intros Hv.
  destruct (findLatestDatedHeader this editor) as [b|] eqn:Hfind;
    [|discriminate].
  destruct (findLatestDatedHeader_found _ _ Hfind)
    as [_ [latest [Hb [Hin [Hbound _]]]]].
  rewrite Hb in Hv. simpl in Hv. inversion Hv. subst v.
  split; [|exact Hbound]. now exists (getLine editor b), latest.
Qed.

Lemma latestValue_none (editor : Editor) :
  latestValue this editor = None ->
  forall text, In text (doc editor) -> extractHeaderDate this text = None.
Proof.
  unfold latestValue. intros Hv text Hin.
  destruct (findLatestDatedHeader this editor) as [b|] eqn:Hfind.
  - destruct (findLatestDatedHeader_found _ _ Hfind) as [_ [latest [Hb _]]].
    rewrite Hb in Hv. discriminate.
  - destruct (In_nth _ _ [] Hin) as [i [Hi Hnth]].
    rewrite findLatestDatedHeader_none in Hfind.
    specialize (Hfind i Hi). rewrite <- Hnth. exact Hfind.
Qed.

(** The instant found depends on the lines only as a bag. *)
Lemma latestValue_permutation (editor editor' : Editor) :
  Permutation (doc editor) (doc editor') ->
  latestValue this editor = latestValue this editor'.
Proof.
  intros Hperm.
  destruct (latestValue this editor) as [v|] eqn:Hv;
    destruct (latestValue this editor') as [v'|] eqn:Hv'.
  - destruct (latestValue_found _ _ Hv) as [[t [d [Hin [Hd Hval]]]] Hbound].
    destruct (latestValue_found _ _ Hv')
      as [[t' [d' [Hin' [Hd' Hval']]]] Hbound'].
    f_equal. apply Z.le_antisymm.
    + rewrite <- Hval. apply (Hbound' t); [|exact Hd].
      now apply (Permutation_in _ Hperm).
    + rewrite <- Hval'. apply (Hbound t'); [|exact Hd'].
      now apply (Permutation_in _ (Permutation_sym Hperm)).
  - exfalso.
    destruct (latestValue_found _ _ Hv) as [[t [d [Hin [Hd _]]]] _].
    pose proof (latestValue_none _ Hv' t
                  (Permutation_in _ Hperm Hin)). congruence.
  - exfalso.
    destruct (latestValue_found _ _ Hv') as [[t [d [Hin [Hd _]]]] _].
    pose proof (latestValue_none _ Hv t
                  (Permutation_in _ (Permutation_sym Hperm) Hin)).
    congruence.
  - reflexivity.
Qed.

(** C6: [findLatestDatedHeader] returns null exactly when no line is a
    dated header; otherwise it returns the index of a dated header whose
    date no other dated header exceeds, and every dated header before that
    index is strictly earlier (the tracked header is replaced only when
    [isAfter] holds, so among equal dates the lowest index is returned);
    the instant of the header found is the same however the lines are
    ordered. *)
Theorem C6_latest_dated_header (editor : Editor) :
  (findLatestDatedHeader this editor = None <->
   forall i, i < lineCount editor ->
     extractHeaderDate this (getLine editor i) = None)
  /\ (forall b, findLatestDatedHeader this editor = Some b ->
        b < lineCount editor
        /\ exists latest,
             extractHeaderDate this (getLine editor b) = Some latest
             /\ (forall j d, j < lineCount editor ->
                   extractHeaderDate this (getLine editor j) = Some d ->
                   isAfter d latest = false)
             /\ (forall j d, j < b ->
                   extractHeaderDate this (getLine editor j) = Some d ->
                   isAfter latest d = true))
  /\ (forall editor', Permutation (doc editor) (doc editor') ->
        latestValue this editor = latestValue this editor').
Proof.
  split; [apply findLatestDatedHeader_none|]. split.
  - intros b Hfind.
    destruct (findLatestDatedHeader_found _ _ Hfind)
      as [Hlt [latest [Hb [_ [Hbound Hearly]]]]].
    split; [exact Hlt|]. exists latest. repeat split.
    + exact Hb.
    + intros j d Hj Hd. unfold isAfter. apply Z.ltb_ge.
      apply (Hbound (getLine editor j)); [|exact Hd].
      now apply nth_In.
    + intros j d Hj Hd. unfold isAfter. apply Z.ltb_lt.
      now apply (Hearly j).
  - intros editor'. apply latestValue_permutation.
Qed.

(** C9: when [findLatestDatedHeader] returns null, the command shows the
    notice and leaves the editor as it is; otherwise, when the header is
    the last line a new empty line is added below it and no line is
    changed else, and in both cases the cursor ends at column 0 of the line
    right below the header, a line of the document. *)
Theorem C9_jump_to_latest_header (editor : Editor) :
  linesAreLines editor ->
  (findLatestDatedHeader this editor = None ->
   jumpToLatestLogHeader this editor
   = (editor, [str "No dated headers found"]))
  /\ (forall target, findLatestDatedHeader this editor = Some target ->
        let after := fst (jumpToLatestLogHeader this editor) in
        snd (jumpToLatestLogHeader this editor) = []
        /\ doc after
           = (if Nat.eqb (S target) (lineCount editor)
              then doc editor ++ [[]] else doc editor)
        /\ cursor after = mkPos (S target) 0
        /\ S target < lineCount after
        /\ getLine after target = getLine editor target
        /\ viewport after = Some (mkPos (S target) 0, mkPos (S target) 0)).
Proof.
  intros Hlines. split.
  - intros Hnone. unfold jumpToLatestLogHeader. now rewrite Hnone.
  - intros target Hfind after. subst after.
    destruct (findLatestDatedHeader_found _ _ Hfind) as [Hlt _].
    unfold jumpToLatestLogHeader. rewrite Hfind.
    unfold lineCount in Hlt.
    replace (target + 1) with (S target) by lia.
    destruct (Nat.eqb_spec (S target) (lineCount editor)) as [Hlast|Hmore].
    + (* the header is the last line *)
      assert (Hleb : (lineCount editor <=? S target) = true)
        by (apply Nat.leb_le; lia).
      rewrite Hleb.
      assert (Hdoc : doc (replaceRange [10%N]
                            (mkPos target (List.length (getLine editor target)))
                            editor)
                     = doc editor ++ [[]]).
      { rewrite replaceRange_line_end by now apply getLine_lines.
        unfold lineCount in Hlast.
        rewrite (skipn_all2 (doc editor)) by lia.
        rewrite app_nil_r.
        change [getLine editor target; []]
          with ([getLine editor target] ++ [[]]).
        rewrite app_assoc. f_equal. now apply firstn_with_last. }
      set (editor1 := replaceRange [10%N]
                        (mkPos target (List.length (getLine editor target)))
                        editor) in *.
      assert (Hcount : lineCount editor1 = S (S target)).
      { unfold lineCount in *. rewrite Hdoc, length_app. simpl. lia. }
      rewrite Hcount.
      replace (Nat.min (S target) (S (S target) - 1)) with (S target) by lia.
      cbn [fst snd]. unfold scrollIntoView, setCursor, getLine, lineCount.
      cbn [doc cursor viewport]. rewrite Hdoc.
      repeat split.
      * rewrite length_app. simpl. lia.
      * now rewrite app_nth1 by lia.
    + (* a line follows the header *)
      assert (Hleb : (lineCount editor <=? S target) = false)
        by (apply Nat.leb_gt; unfold lineCount in *; lia).
      rewrite Hleb.
      replace (Nat.min (S target) (lineCount editor - 1))
        with (S target) by (unfold lineCount in *; lia).
      cbn [fst snd]. unfold scrollIntoView, setCursor, getLine, lineCount.
      cbn [doc cursor viewport].
      repeat split. unfold lineCount in Hmore. lia.
Qed.

End Navigator.
(* ===================================================================== *)
(** ** The header classifier *)
(* ===================================================================== *)

Lemma trimEnd_snoc (s : jsstring) (c : N) :
  isWhiteSpace c = false -> trimEnd (s ++ [c]) = s ++ [c].
Proof.
  intros Hc. unfold trimEnd. rewrite rev_app_distr. simpl.
  rewrite Hc. simpl. now rewrite rev_involutive.
Qed.

Lemma trim_fixed (c e : N) (s : jsstring) :
  isWhiteSpace c = false -> isWhiteSpace e = false ->
  trim (c :: s ++ [e]) = c :: s ++ [e].
Proof.
  intros Hc He. unfold trim, trimStart.
  rewrite dropWhile_head_false by exact Hc.
  change (c :: s ++ [e]) with ((c :: s) ++ [e]).
  now apply trimEnd_snoc.
Qed.

Lemma trim_unit (c : N) : isWhiteSpace c = false -> trim [c] = [c].
Proof.
  intros Hc. unfold trim, trimStart, trimEnd. simpl. rewrite Hc. simpl.
  now rewrite Hc.
Qed.

Lemma linkBody_closed (x : jsstring) :
  x <> [] ->
  forallb (fun c => negb (isLineTerminator c || (c =? chClose)%N)) x = true ->
  linkBody (x ++ str "]]") = Some x.
Proof.
  induction x as [|c x IH]; [congruence|]. intros _ Hall.
  simpl in Hall. apply andb_prop in Hall. destruct Hall as [Hc Hx].
  apply negb_true_iff, orb_false_elim in Hc. destruct Hc as [Hlt Hclose].
  change ((c :: x) ++ str "]]") with (c :: (x ++ str "]]")).
  cbn [linkBody]. rewrite Hlt.
  destruct x as [|d x]; [reflexivity|].
  assert (Hstart : startsWith ((d :: x) ++ str "]]") (str "]]") = false).
  { simpl in Hx. apply andb_prop in Hx. destruct Hx as [Hd _].
    apply negb_true_iff, orb_false_elim in Hd. destruct Hd as [_ Hd].
    cbn. unfold chClose in Hd. now rewrite Hd. }
  rewrite Hstart, IH; [reflexivity|congruence|exact Hx].
Qed.

Lemma linkMatch_open (y body : jsstring) :
  linkBody y = Some body -> linkMatch (chOpen :: chOpen :: y) = Some body.
Proof.
  intros Hbody.
  change (linkMatch (chOpen :: chOpen :: y))
    with (match linkBody y with
          | Some b => Some b
          | None => linkMatch (chOpen :: y)
          end).
  now rewrite Hbody.
Qed.

Lemma linkMatch_none (s : jsstring) :
  forallb (fun c => negb (c =? chOpen)%N) s = true -> linkMatch s = None.
Proof.
  induction s as [|c s IH]; [reflexivity|]. intros Hall.
  simpl in Hall. apply andb_prop in Hall. destruct Hall as [Hc Hs].
  apply negb_true_iff in Hc.
  assert (Hstart : startsWith (c :: s) (str "[[") = false).
  { cbn. unfold chOpen in Hc. now rewrite Hc. }
  cbn [linkMatch]. rewrite Hstart. now apply IH.
Qed.

Lemma splitHead_whole (c : N) (s : jsstring) :
  forallb (fun d => negb (d =? c)%N) s = true -> splitHead c s = s.
Proof.
  induction s as [|d s IH]; [reflexivity|]. simpl. intros Hall.
  apply andb_prop in Hall. destruct Hall as [Hd Hs].
  apply negb_true_iff in Hd. rewrite Hd. now rewrite IH.
Qed.

Lemma splitHead_before (c : N) (s t : jsstring) :
  forallb (fun d => negb (d =? c)%N) s = true ->
  splitHead c (s ++ c :: t) = s.
Proof.
  induction s as [|d s IH]; simpl.
  - now rewrite N.eqb_refl.
  - intros Hall. apply andb_prop in Hall. destruct Hall as [Hd Hs].
    apply negb_true_iff in Hd. rewrite Hd. now rewrite IH.
Qed.

Lemma forallb_weaken (p q : N -> bool) (s : jsstring) :
  (forall c, p c = true -> q c = true) ->
  forallb p s = true -> forallb q s = true.
Proof.
  intros Himp. rewrite !forallb_forall. auto.
Qed.

Lemma plainUnit_inv (c : N) :
  plainUnit c = true ->
  isWhiteSpace c = false /\ (c =? chHash)%N = false
  /\ (c =? chPipe)%N = false /\ (c =? chOpen)%N = false
  /\ (c =? chClose)%N = false.
Proof.
  unfold plainUnit. intros H. apply negb_true_iff in H.
  do 4 (apply orb_false_elim in H; destruct H as [H ?]). tauto.
Qed.

Lemma white_space_has_terminators (c : N) :
  isWhiteSpace c = false -> isLineTerminator c = false.
Proof.
  unfold isWhiteSpace. intros H. now apply orb_false_elim in H.
Qed.

Lemma trim_plain (d : jsstring) :
  forallb plainUnit d = true -> trim d = d.
Proof.
  intros Hall. destruct d as [|c d]; [reflexivity|].
  assert (Hc : isWhiteSpace c = false).
  { simpl in Hall. apply andb_prop in Hall. destruct Hall as [Hc _].
    now apply plainUnit_inv in Hc. }
  destruct d as [|c' d]; [now apply trim_unit|].
  destruct (exists_last (l := c' :: d)) as [s [e Hs]]; [discriminate|].
  rewrite Hs in *. apply trim_fixed; [exact Hc|].
  simpl in Hall. apply andb_prop in Hall. destruct Hall as [_ Hall].
  rewrite forallb_app in Hall. apply andb_prop in Hall.
  destruct Hall as [_ He]. simpl in He. rewrite andb_true_r in He.
  now apply plainUnit_inv in He.
Qed.

Lemma plainDateText_inv (d : jsstring) :
  plainDateText d = true -> d <> [] /\ forallb plainUnit d = true.
Proof.
  destruct d; [discriminate|]. intros H. split; [discriminate|exact H].
Qed.

Section Unwrap.

Context {DF : DateFormatter}.

Variable this : TimelogPlugin.

Lemma extractHeaderDate_plain (d : jsstring) :
  plainDateText d = true ->
  extractHeaderDate this (str "## " ++ d)
  = momentStrict d (dailyNoteFormat this).
Proof.
  intros Hplain. destruct (plainDateText_inv _ Hplain) as [Hne Hall].
  unfold extractHeaderDate.
  assert (Htrim : trim (str "## " ++ d) = str "## " ++ d).
  { destruct (exists_last Hne) as [s [e Hs]]. rewrite Hs.
    rewrite Hs, forallb_app in Hall. apply andb_prop in Hall.
    destruct Hall as [_ He]. simpl in He. rewrite andb_true_r in He.
    apply plainUnit_inv in He.
    change (str "## " ++ s ++ [e])
      with (chHash :: (chHash :: 32%N :: s) ++ [e]).
    apply trim_fixed; [reflexivity|tauto]. }
  rewrite Htrim.
  destruct d as [|c d]; [congruence|].
  assert (Hc : plainUnit c = true)
    by (simpl in Hall; now apply andb_prop in Hall).
  apply plainUnit_inv in Hc. destruct Hc as [Hws _].
  assert (Hstrip : stripHeadingMarkers (str "## " ++ c :: d) = c :: d).
  { cbn. now rewrite Hws. }
  change (startsWith (str "## " ++ c :: d) [chHash]) with true.
  cbn [negb]. rewrite Hstrip, (trim_plain _ Hall).
  rewrite linkMatch_none.
  - rewrite splitHead_whole; [reflexivity|].
    revert Hall. apply forallb_weaken. intros x Hx.
    apply plainUnit_inv in Hx. apply negb_true_iff. tauto.
  - revert Hall. apply forallb_weaken. intros x Hx.
    apply plainUnit_inv in Hx. apply negb_true_iff. tauto.
Qed.

Lemma extractHeaderDate_link (d alias : jsstring) :
  plainDateText d = true -> plainAlias alias = true ->
  extractHeaderDate this (str "## [[" ++ d ++ chPipe :: alias ++ str "]]")
  = momentStrict d (dailyNoteFormat this).
Proof.
  intros Hplain Halias. destruct (plainDateText_inv _ Hplain) as [Hne Hall].
  unfold extractHeaderDate.
  set (x := d ++ chPipe :: alias).
  assert (Hline : str "## [[" ++ d ++ chPipe :: alias ++ str "]]"
                  = chHash :: (str "# [[" ++ x ++ [chClose]) ++ [chClose]).
  { subst x. cbn. rewrite <- !app_assoc. reflexivity. }
  rewrite Hline. rewrite trim_fixed by reflexivity.
  change (startsWith (chHash :: (str "# [[" ++ x ++ [chClose]) ++ [chClose])
            [chHash]) with true.
  cbn [negb].
  assert (Hstrip :
            stripHeadingMarkers
              (chHash :: (str "# [[" ++ x ++ [chClose]) ++ [chClose])
            = chOpen :: (chOpen :: x ++ [chClose]) ++ [chClose]).
  { reflexivity. }
  rewrite Hstrip. rewrite trim_fixed by reflexivity.
  assert (Hcontent : chOpen :: (chOpen :: x ++ [chClose]) ++ [chClose]
                     = str "[[" ++ x ++ str "]]").
  { cbn. rewrite <- app_assoc. reflexivity. }
  rewrite Hcontent.
  assert (Hmatch : linkMatch (str "[[" ++ x ++ str "]]") = Some x).
  { apply linkMatch_open. apply linkBody_closed.
    - subst x. destruct d; [congruence|discriminate].
    - subst x. rewrite forallb_app. apply andb_true_intro. split.
      + revert Hall. apply forallb_weaken. intros c Hc.
        apply plainUnit_inv in Hc. destruct Hc as [Hws [_ [_ [_ Hcl]]]].
        apply white_space_has_terminators in Hws.
        now rewrite Hws, Hcl.
      + simpl. exact Halias. }
  rewrite Hmatch. subst x. rewrite splitHead_before; [reflexivity|].
  revert Hall. apply forallb_weaken. intros c Hc.
  apply plainUnit_inv in Hc. apply negb_true_iff. tauto.
Qed.

End Unwrap.

(** C7: against the pattern YYYY-MM-DD the header [## 2024-5-11] has no
    date (the month is not zero-padded) and [## 2024-05-11] has the date
    May 11, 2024; the header [## [[2024-05-11|Notes]]] gives the same
    result as [## 2024-05-11]; and under every pattern and date library a
    header [## [[d|alias]]] gives what [## d] gives, the strict parse of
    the text [d] before the pipe. *)
Theorem C7_strict_header_dates :
  (forall now conf last,
     extractHeaderDate (DF := Moment.formatter now)
       (mkPlugin conf DEFAULT_HEADER_FORMAT last) (str "## 2024-5-11")
     = None)
  /\ (forall now conf last,
        extractHeaderDate (DF := Moment.formatter now)
          (mkPlugin conf DEFAULT_HEADER_FORMAT last) (str "## 2024-05-11")
        = Some (Moment.mkDate 2024 5 11 0 0 0))
  /\ (forall (DF : DateFormatter) (this : TimelogPlugin),
        extractHeaderDate this (str "## [[2024-05-11|Notes]]")
        = extractHeaderDate this (str "## 2024-05-11"))
  /\ (forall (DF : DateFormatter) (this : TimelogPlugin) (d alias : jsstring),
        plainDateText d = true -> plainAlias alias = true ->
        extractHeaderDate this (str "## [[" ++ d ++ chPipe :: alias ++ str "]]")
        = momentStrict d (dailyNoteFormat this)
        /\ extractHeaderDate this (str "## " ++ d)
           = momentStrict d (dailyNoteFormat this)).
Proof.
  split; [|split; [|split]].
  - intros now conf last. reflexivity.
  - intros now conf last. reflexivity.
  - intros DF this. reflexivity.
  - intros DF this d alias Hd Halias. split.
    + now apply extractHeaderDate_link.
    + now apply extractHeaderDate_plain.
Qed.

Lemma hash_is_no_white_space : isWhiteSpace chHash = false.
Proof. reflexivity. Qed.

Lemma trim_keeps_first (c : N) (rest : jsstring) :
  isWhiteSpace c = false ->
  startsWith (trim (c :: rest)) [chHash] = true -> c = chHash.
Proof.
  intros Hc Htrim. unfold trim, trimStart in Htrim.
  rewrite (dropWhile_head_false _ _ rest Hc) in Htrim.
  apply startsWith_unit in Htrim. destruct Htrim as [r Hr].
  destruct (trimEnd_prefix (c :: rest)) as [tail Htail].
  rewrite Hr in Htail. simpl in Htail. now inversion Htail.
Qed.

Section Classifier.

Context {DF : DateFormatter}.

Variable this : TimelogPlugin.

(** A dated header starts with [#] once trimmed. *)
Lemma dated_starts_with_hash_trimmed (line : jsstring) :
  extractHeaderDate this line <> None ->
  startsWith (trim line) [chHash] = true.
Proof.
  unfold extractHeaderDate.
  destruct (startsWith (trim line) [chHash]); simpl; congruence.
Qed.

(** C8, amended: [isNormalHeader line] holds exactly when [line] starts
    with [#]; a line with a date from [extractHeaderDate] starts with [#]
    once trimmed, so [isNormalHeader] holds of the trimmed line, and holds
    of the line itself exactly when no white space comes before the [#]. *)
Theorem C8_dated_header_once_trimmed (line : jsstring) :
  (isNormalHeader line = true <-> exists rest, line = chHash :: rest)
  /\ (extractHeaderDate this line <> None ->
      isNormalHeader (trim line) = true
      /\ isNormalHeader line = negb (beginsWithWhiteSpace line)).
Proof.
  split; [apply startsWith_unit|].
  intros Hdated. apply dated_starts_with_hash_trimmed in Hdated.
  split; [exact Hdated|].
  destruct line as [|c rest]; [discriminate|].
  unfold beginsWithWhiteSpace.
  destruct (isWhiteSpace c) eqn:Hc; simpl.
  - unfold isNormalHeader. simpl.
    destruct (N.eqb_spec c chHash) as [->|_]; [|reflexivity].
    rewrite hash_is_no_white_space in Hc. discriminate.
  - rewrite (trim_keeps_first _ _ Hc Hdated).
    apply startsWith_unit. now exists rest.
Qed.

End Classifier.

(** C8, as stated, fails: indented by one space, the header has a date
    but does not start with [#]. *)
Lemma C8_indented_dated_header :
  extractHeaderDate (DF := Moment.formatter noon) plainPlugin
    (str " ## 2024-05-11") = Some (Moment.mkDate 2024 5 11 0 0 0)
  /\ isNormalHeader (str " ## 2024-05-11") = false.
Proof. split; reflexivity. Qed.

Lemma C8_dated_header_once_trimmed_witness :
  isNormalHeader (trim (str " ## 2024-05-11")) = true
  /\ isNormalHeader (str " ## 2024-05-11")
     = negb (beginsWithWhiteSpace (str " ## 2024-05-11")).
Proof.
  apply (C8_dated_header_once_trimmed (DF := Moment.formatter noon)
           plainPlugin (str " ## 2024-05-11")).
  discriminate.
Defined.

(* ===================================================================== *)
(** ** The line-state classifier and the list-mode gate *)
(* ===================================================================== *)

Lemma stripLeadingMark_is_run (line : jsstring) :
  atMostOneLeadingMark line = true ->
  stripLeadingMark line = stripLeadingRun line.
Proof.
  unfold stripLeadingRun. destruct line as [|c [|d rest]]; simpl.
  - reflexivity.
  - intros _. unfold isListMark.
    now destruct ((c =? chHyphen)%N || isWhiteSpace c).
  - unfold isListMark at 1 3.
    destruct ((c =? chHyphen)%N || isWhiteSpace c); simpl; [|reflexivity].
    destruct (isListMark d); [discriminate|reflexivity].
Qed.

Section LineState.

Context {DF : DateFormatter}.

Variable this : TimelogPlugin.

(** C4, amended: on a line that starts with at most one hyphen or
    white-space character, [isLoggedLine] is true exactly when the
    forgiving parse succeeds on this text: the line without its leading
    hyphen or white space and without any [*], cut to the length of the
    timestamp pattern. *)
Theorem C4_logged_line_forgiving (line : jsstring) :
  atMostOneLeadingMark line = true ->
  let pattern := logFormat (settings this) in
  let prefix :=
    firstn (List.length pattern) (removeAll chStar (stripLeadingRun line)) in
  isLoggedLine this line = true <-> momentIsValid prefix pattern = true.
Proof.
  intros Hone pattern prefix. unfold isLoggedLine, substring0.
  rewrite (stripLeadingMark_is_run _ Hone). reflexivity.
Qed.

Variable editor : Editor.

(** C3, amended: with [useList] on, the detector returns false when the
    trimmed line does not start with [*], when the line starts with a tab,
    and when the line starts with [**]; a line whose trimmed text starts
    with [*] and that starts with neither a tab nor [**] passes the gate,
    and the detector then answers by its other checks. *)
Theorem C3_list_mode_gate (now : Z) :
  useList (settings this) = true ->
  let line := getLine editor (pos_line (cursor editor)) in
  (startsWith (trim line) [chStar] = false ->
   shouldInsertLine this editor now = false)
  /\ (startsWith line [chTab] = true ->
      shouldInsertLine this editor now = false)
  /\ (startsWith line (str "**") = true ->
      shouldInsertLine this editor now = false)
  /\ (startsWith (trim line) [chStar] = true ->
      startsWith line [chTab] = false ->
      startsWith line (str "**") = false ->
      listModeBlocks line = false
      /\ shouldInsertLine this editor now
         = isWithinInterval this now && negb (isLoggedLine this line)
           && lookAbove this editor (pos_line (cursor editor))).
Proof.
  intros Hlist line.
  assert (Hblocked : listModeBlocks line = true ->
            shouldInsertLine this editor now = false).
  { intros Hb. unfold shouldInsertLine, getCursor. fold line.
    rewrite Hlist, Hb.
    destruct (isWithinInterval this now); simpl; [|reflexivity].
    now destruct (isLoggedLine this line). }
  split; [|split; [|split]].
  - intros Hstar. apply Hblocked. unfold listModeBlocks. rewrite Hstar.
    destruct (startsWith line (str "**")); [reflexivity|].
    now destruct (startsWith line [chTab]).
  - intros Htab. apply Hblocked. unfold listModeBlocks. rewrite Htab.
    now destruct (startsWith line (str "**")).
  - intros Hbold. apply Hblocked. unfold listModeBlocks. now rewrite Hbold.
  - intros Hstar Htab Hbold.
    assert (Hpass : listModeBlocks line = false).
    { unfold listModeBlocks. now rewrite Hstar, Htab, Hbold. }
    split; [exact Hpass|].
    unfold shouldInsertLine, getCursor. fold line.
    rewrite Hlist, Hpass. simpl.
    destruct (isWithinInterval this now); simpl; [|reflexivity].
    now destruct (isLoggedLine this line).
Qed.

End LineState.

(** C4, as stated, fails.  On an entry nested by four spaces the code
    removes one space only, the window holds no digit, and the line does
    not count as logged, while the specified steps find [09:42].  On
    [-5 apples] the forgiving parse takes the hour 5 from [5 app], which
    the strict parse of the specified steps refuses. *)
Lemma C4_nested_entry_and_lenient_parse :
  (isLoggedLine (DF := Moment.formatter noon) plainPlugin
     (str "    - **09:42**: Retried") = false
   /\ isLoggedLine_spec (DF := Moment.formatter noon) plainPlugin
        (str "    - **09:42**: Retried") = true)
  /\ (isLoggedLine (DF := Moment.formatter noon) plainPlugin
        (str "-5 apples") = true
      /\ isLoggedLine_spec (DF := Moment.formatter noon) plainPlugin
           (str "-5 apples") = false).
Proof. repeat split; reflexivity. Qed.

Lemma C4_logged_line_forgiving_witness :
  isLoggedLine (DF := Moment.formatter noon) plainPlugin
    (str "-**12:30**: rest") = true
  <-> Moment.parseIsValid (Moment.dateOfInstant noon)
        (str "12:30") (str "HH:mm") = true.
Proof.
  apply (C4_logged_line_forgiving (DF := Moment.formatter noon)
           plainPlugin (str "-**12:30**: rest")).
  reflexivity.
Defined.

(** C3, as stated, fails.  Under a dated header the item [- item] passes
    every other check (the detector answers true with [useList] off) and
    its trimmed text starts with a hyphen, yet with [useList] on the
    detector returns false; and the item [  * item], indented by spaces,
    is not held back. *)
Lemma C3_hyphen_item_and_space_indent :
  (startsWith (trim (str "- item")) [chHyphen] = true
   /\ listModeBlocks_spec (str "- item") = false
   /\ shouldInsertLine (DF := Moment.formatter noon) plainPlugin
        (editorOn (datedItem (str "- item")) 1 6) noon = true
   /\ shouldInsertLine (DF := Moment.formatter noon) listPlugin
        (editorOn (datedItem (str "- item")) 1 6) noon = false)
  /\ (beginsWithWhiteSpace (str "  * item") = true
      /\ listModeBlocks_spec (str "  * item") = true
      /\ shouldInsertLine (DF := Moment.formatter noon) listPlugin
           (editorOn (datedItem (str "  * item")) 1 8) noon = true).
Proof. repeat split; reflexivity. Qed.

Lemma C3_list_mode_gate_witness :
  shouldInsertLine (DF := Moment.formatter noon) listPlugin
    (editorOn (datedItem (str "- item")) 1 6) noon = false.
Proof.
  refine (proj1 (C3_list_mode_gate (DF := Moment.formatter noon) listPlugin
                   (editorOn (datedItem (str "- item")) 1 6) noon _) _);
    reflexivity.
Defined.

(* ===================================================================== *)
(** ** The prefix inserter *)
(* ===================================================================== *)

Lemma logHeaderOf_line_feed (logPrefix : jsstring) :
  hasLineFeed (logHeaderOf logPrefix) = hasLineFeed logPrefix.
Proof.
  unfold logHeaderOf. rewrite !hasLineFeed_app.
  change (hasLineFeed (str "**")) with false.
  change (hasLineFeed (str "**: ")) with false.
  now rewrite orb_false_r.
Qed.

Lemma splitLines_not_empty (s : jsstring) : 1 <= List.length (splitLines s).
Proof.
  induction s as [|c rest IH]; simpl; [lia|].
  destruct (c =? 10)%N; simpl; [lia|].
  destruct (splitLines rest); simpl in *; lia.
Qed.

Section Inserter.

Context {DF : DateFormatter}.

Variable this : TimelogPlugin.
Variable editor : Editor.

(** The run of [insertLogLine] written out. *)
Lemma insertLogLine_run (now : Z) (logPrefix : jsstring) :
  getFormattedLogPrefix this now = Some logPrefix ->
  let n := pos_line (cursor editor) in
  let line := getLine editor n in
  let offset := Nat.min (Z.to_nat (insertionOffset line)) (List.length line) in
  insertLogLine this editor now
  = Some
      (mkPlugin (settings this) (dailyNoteFormat this) (Some now),
       mkEditor
         (firstn n (doc editor)
            ++ splitLines (firstn offset line ++ logHeaderOf logPrefix
                             ++ skipn offset line)
            ++ skipn (S n) (doc editor))
         (mkPos n (pos_ch (cursor editor)
                   + List.length (logHeaderOf logPrefix)))
         (viewport editor)).
Proof.
  intros Hprefix n line offset. unfold insertLogLine. rewrite Hprefix.
  reflexivity.
Qed.

(** Formatting gives a text as soon as it does for the default pattern. *)
Lemma getFormattedLogPrefix_total (now : Z) :
  momentFormat now (logFormat DEFAULT_SETTINGS) <> None ->
  exists logPrefix, getFormattedLogPrefix this now = Some logPrefix.
Proof.
  intros Hdefault. unfold getFormattedLogPrefix.
  destruct (momentFormat now (logFormat (settings this))) as [text|].
  - now exists text.
  - destruct (momentFormat now (logFormat DEFAULT_SETTINGS)) as [text|];
      [now exists text|congruence].
Qed.

(** C2: what the code does.  With a [*] in the line the offset is two past
    its first occurrence; without one the offset is 1, where the claim has
    0: on the line [- ] the prefix goes between the hyphen and the space.
    The text put in is [**<timestamp>**: ], and the cursor column grows by
    its length. *)
Theorem C2_insertion_offset_in_code (now : Z) :
  (forall before after, ~ In chStar before ->
     insertionOffset (before ++ chStar :: after)
     = (Z.of_nat (List.length before) + 2)%Z)
  /\ (forall line, ~ In chStar line -> insertionOffset line = 1%Z)
  /\ insertionOffset (str "- ") = 1%Z
  /\ insertionOffset_spec (str "- ") = 0%Z
  /\ insertionOffset (str "- **old**: text") = 4%Z
  /\ (forall logPrefix, getFormattedLogPrefix this now = Some logPrefix ->
        exists this' editor',
          insertLogLine this editor now = Some (this', editor')
          /\ cursor editor'
             = mkPos (pos_line (cursor editor))
                 (pos_ch (cursor editor)
                  + List.length (str "**" ++ logPrefix ++ str "**: "))).
Proof.
  split; [|split; [|split; [|split; [|split]]]]; try reflexivity.
  - intros before after Hnot. unfold insertionOffset.
    destruct (indexOf_first (before ++ chStar :: after) chStar)
      as [b [a [Heq [Hb Hidx]]]].
    { apply in_or_app. right. now left. }
    rewrite Hidx. f_equal. f_equal.
    clear Hidx. revert b Heq Hb.
    induction before as [|c before IH]; intros b Heq Hb.
    + destruct b as [|c b]; [reflexivity|].
      simpl in Heq. inversion Heq. subst c. exfalso. apply Hb. now left.
    + destruct b as [|d b].
      * simpl in Heq. inversion Heq. subst c. exfalso. apply Hnot. now left.
      * simpl in Heq. inversion Heq. subst d. simpl. f_equal.
        apply IH; [|assumption|].
        -- intros X. apply Hnot. now right.
        -- intros X. apply Hb. now right.
  - intros line Hnot. unfold insertionOffset.
    apply indexOf_absent in Hnot. now rewrite Hnot.
  - intros logPrefix Hprefix.
    rewrite (insertLogLine_run now logPrefix Hprefix).
    eexists. eexists. split; reflexivity.
Qed.

(** C10: a prefix insertion keeps the lines above and below the cursor
    line, and puts the prefix text in at one offset of the cursor line;
    when the timestamp text holds no line feed the document keeps its line
    count and every line but the cursor line.  Of the plugin state only
    the last-replacement instant changes, to the current instant. *)
Theorem C10_insertion_frame (now : Z) (logPrefix : jsstring) :
  wellFormed editor ->
  linesAreLines editor ->
  getFormattedLogPrefix this now = Some logPrefix ->
  let n := pos_line (cursor editor) in
  let line := getLine editor n in
  let logHeader := logHeaderOf logPrefix in
  exists this' editor' offset,
    insertLogLine this editor now = Some (this', editor')
    /\ offset <= List.length line
    /\ doc editor'
       = firstn n (doc editor)
           ++ splitLines (firstn offset line ++ logHeader ++ skipn offset line)
           ++ skipn (S n) (doc editor)
    /\ (forall i, i < n -> getLine editor' i = getLine editor i)
    /\ (forall i, n < i ->
          getLine editor' (i + (lineCount editor' - lineCount editor))
          = getLine editor i)
    /\ (hasLineFeed logPrefix = false ->
        lineCount editor' = lineCount editor
        /\ getLine editor' n
           = firstn offset line ++ logHeader ++ skipn offset line
        /\ forall i, i <> n -> getLine editor' i = getLine editor i)
    /\ settings this' = settings this
    /\ dailyNoteFormat this' = dailyNoteFormat this
    /\ lastReplacement this' = Some now
    /\ pos_line (cursor editor') = n
    /\ viewport editor' = viewport editor.
Proof.
  intros Hcursor Hlines Hprefix n line logHeader.
  unfold wellFormed, lineCount in Hcursor. fold n in Hcursor.
  rewrite (insertLogLine_run now logPrefix Hprefix). fold n line logHeader.
  set (offset := Nat.min (Z.to_nat (insertionOffset line))
                   (List.length line)).
  set (new := firstn offset line ++ logHeader ++ skipn offset line).
  eexists. eexists. exists offset.
  split; [reflexivity|].
  assert (Habove : List.length (firstn n (doc editor)) = n)
    by (rewrite length_firstn; lia).
  pose proof (splitLines_not_empty new) as Hpieces.
  unfold getLine, lineCount. cbn [doc cursor viewport settings
    dailyNoteFormat lastReplacement pos_line].
  split; [subst offset; lia|]. split; [reflexivity|].
  split; [|split; [|split]].
  - intros i Hi. rewrite app_nth1 by lia.
    rewrite <- (firstn_skipn n (doc editor)) at 2.
    now rewrite app_nth1 by lia.
  - intros i Hi. rewrite !length_app, Habove, length_skipn.
    rewrite app_nth2; rewrite Habove; [|lia].
    rewrite app_nth2 by lia.
    rewrite <- (firstn_skipn (S n) (doc editor)) at 4.
    assert (Hupto : List.length (firstn (S n) (doc editor)) = S n)
      by (rewrite length_firstn; lia).
    rewrite app_nth2; rewrite Hupto; [|lia].
    f_equal. lia.
  - intros Hfeed.
    assert (Hone : splitLines new = [new]).
    { apply splitLines_single. subst new.
      rewrite !hasLineFeed_app.
      rewrite hasLineFeed_firstn, hasLineFeed_skipn
        by (now apply getLine_lines).
      subst logHeader. now rewrite logHeaderOf_line_feed, Hfeed. }
    rewrite Hone. split; [|split].
    + now apply length_replaced.
    + rewrite nth_replaced by lia. now rewrite Nat.eqb_refl.
    + intros i Hi. rewrite nth_replaced by lia.
      destruct (Nat.eqb_spec i n); [contradiction|reflexivity].
  - repeat split.
Qed.

End Inserter.

(* ===================================================================== *)
(** ** The theorems at work on the examples *)
(* ===================================================================== *)

Lemma C7_strict_header_dates_witness :
  extractHeaderDate (DF := Moment.formatter noon) plainPlugin
    (str "## [[" ++ str "2024-06-01" ++ chPipe :: str "Plan" ++ str "]]")
  = Moment.parseStrict (Moment.dateOfInstant noon) (str "2024-06-01")
      DEFAULT_HEADER_FORMAT.
Proof.
  refine (proj1 (proj2 (proj2 (proj2 C7_strict_header_dates))
                   (Moment.formatter noon) plainPlugin
                   (str "2024-06-01") (str "Plan") _ _));
    reflexivity.
Defined.

Lemma C1_ancestry_scan_witness :
  shouldInsertLine (DF := Moment.formatter noon) plainPlugin notesThenDated
    noon = true
  /\ shouldInsertLine (DF := Moment.formatter noon) plainPlugin
       datedThenNotes noon = false.
Proof.
  split.
  - refine (proj1 (C1_ancestry_scan (DF := Moment.formatter noon)
                     plainPlugin notesThenDated noon
                     eq_refl eq_refl eq_refl) 1 _ _ _).
    + simpl. lia.
    + discriminate.
    + intros k Hk. simpl in Hk. lia.
  - refine (proj1 (proj2 (C1_ancestry_scan (DF := Moment.formatter noon)
                            plainPlugin datedThenNotes noon
                            eq_refl eq_refl eq_refl)) 1 _ eq_refl eq_refl _).
    + simpl. lia.
    + intros k Hk. simpl in Hk. lia.
Defined.

Lemma C5_rate_limit_witness :
  shouldInsertLine (DF := Moment.formatter noon) ratedPlugin notesThenDated
    (noon + 10000) = false
  /\ isWithinInterval ratedPlugin (noon + 31000) = true.
Proof.
  split.
  - refine (proj2 (proj1 (C5_rate_limit (DF := Moment.formatter noon)
                            ratedPlugin notesThenDated (noon + 10000))
                     noon eq_refl _)).
    reflexivity.
  - refine (proj1 (proj1 (proj2 (C5_rate_limit (DF := Moment.formatter noon)
                                   ratedPlugin notesThenDated
                                   (noon + 31000)))
                     noon eq_refl _)).
    discriminate.
Defined.

Lemma C6_latest_dated_header_witness :
  1 < lineCount threeDated
  /\ latestValue (DF := Moment.formatter noon) plainPlugin threeDated
     = latestValue (DF := Moment.formatter noon) plainPlugin
         threeDatedReordered.
Proof.
  split.
  - exact (proj1 (proj1 (proj2 (C6_latest_dated_header
                                  (DF := Moment.formatter noon)
                                  plainPlugin threeDated))
                    1 eq_refl)).
  - apply (proj2 (proj2 (C6_latest_dated_header
                           (DF := Moment.formatter noon)
                           plainPlugin threeDated))).
    apply perm_swap.
Defined.

Lemma C9_jump_to_latest_header_witness :
  doc (fst (jumpToLatestLogHeader (DF := Moment.formatter noon) plainPlugin
              loneHeader))
  = [str "## 2024-05-11"; []]
  /\ cursor (fst (jumpToLatestLogHeader (DF := Moment.formatter noon)
                    plainPlugin loneHeader))
     = mkPos 1 0.
Proof.
  assert (Hlines : linesAreLines loneHeader)
    by (repeat constructor).
  destruct (proj2 (C9_jump_to_latest_header (DF := Moment.formatter noon)
                     plainPlugin loneHeader Hlines) 0 eq_refl)
    as [_ [Hdoc [Hcursor _]]].
  split; [exact Hdoc|exact Hcursor].
Defined.

Lemma C10_insertion_frame_witness :
  exists this' editor',
    insertLogLine (DF := Moment.formatter noon) plainPlugin starItem noon
    = Some (this', editor')
    /\ getLine editor' 1 = str "* **12:00**: "
    /\ getLine editor' 0 = getLine starItem 0
    /\ lastReplacement this' = Some noon.
Proof.
  assert (Hcursor : wellFormed starItem) by (cbv; repeat constructor).
  assert (Hlines : linesAreLines starItem) by (repeat constructor).
  destruct (C10_insertion_frame (DF := Moment.formatter noon) plainPlugin
              starItem noon (str "12:00") Hcursor Hlines eq_refl)
    as [this' [editor' [offset [Hrun [_ [Hdoc [Habove Hrest]]]]]]].
  destruct Hrest as [_ [_ [_ [_ [Hlast _]]]]].
  exists this', editor'. split; [exact Hrun|].
  split; [|split; [|exact Hlast]].
  - inversion Hrun. reflexivity.
  - apply Habove. simpl. lia.
Defined.

Lemma C2_insertion_offset_in_code_witness :
  insertionOffset (str "- item") = 1%Z
  /\ insertionOffset (str "* item") = 2%Z.
Proof.
  split.
  - apply (proj1 (proj2 (C2_insertion_offset_in_code
                           (DF := Moment.formatter noon) plainPlugin
                           starItem noon))).
    simpl. intros H. repeat (destruct H as [H|H]; [discriminate|]).
    exact H.
  - apply (proj1 (C2_insertion_offset_in_code
                    (DF := Moment.formatter noon) plainPlugin
                    starItem noon) [] (str " item")).
    simpl. tauto.
Defined.

(* ===================================================================== *)
(** ** Beyond the claims: the detector, read backwards *)
(* ===================================================================== *)

(** No date library gives the empty line a date: it has no [#]. *)
Lemma extractHeaderDate_empty {DF : DateFormatter} (this : TimelogPlugin) :
  extractHeaderDate this [] = None.
Proof. reflexivity. Qed.

(** A line with a date is a line of the document. *)
Lemma dated_line_in_range {DF : DateFormatter} (this : TimelogPlugin)
  (editor : Editor) (j : nat) :
  extractHeaderDate this (getLine editor j) <> None -> j < lineCount editor.
Proof.
  intros Hdated. destruct (Nat.lt_ge_cases j (lineCount editor)) as [H|H];
    [exact H|].
  exfalso. apply Hdated. unfold getLine.
  rewrite nth_overflow by exact H. reflexivity.
Qed.

Section DetectorBackwards.

Context {DF : DateFormatter}.

Variable this : TimelogPlugin.
Variable editor : Editor.

(** A scan that answers true has met a dated header before any other. *)
Lemma lookAbove_true_inv (n : nat) :
  lookAbove this editor n = true ->
  exists j, j < n /\ isLogHeader this (getLine editor j) = true
            /\ plainBetween this editor j n.
Proof.
  induction n as [|n IH]; simpl; [discriminate|].
  destruct (isLogHeader this (getLine editor n)) eqn:Hlog.
  - intros _. exists n. split; [lia|]. split; [exact Hlog|].
    intros k Hk. lia.
  - destruct (isNormalHeader (getLine editor n)) eqn:Hnormal;
      [discriminate|].
    intros Hscan. destruct (IH Hscan) as [j [Hj [Hdated Hplain]]].
    exists j. split; [lia|]. split; [exact Hdated|].
    intros k Hk. destruct (Nat.eq_dec k n) as [->|Hne]; [tauto|].
    apply Hplain. lia.
Qed.

Lemma shouldInsertLine_context (now : Z) :
  shouldInsertLine this editor now = true <->
  insertionContext this editor now.
Proof.
  unfold insertionContext, shouldInsertLine, getCursor.
  set (cursorLine := pos_line (cursor editor)).
  set (line := getLine editor cursorLine).
  split.
  - destruct (isWithinInterval this now); simpl; [|discriminate].
    destruct (isLoggedLine this line); [discriminate|].
    destruct (useList (settings this) && listModeBlocks line) eqn:Hgate;
      [discriminate|].
    intros Hscan. apply lookAbove_true_inv in Hscan.
    destruct Hscan as [j [Hj [Hdated Hplain]]].
    assert (Hsome : extractHeaderDate this (getLine editor j) <> None).
    { unfold isLogHeader in Hdated.
      destruct (extractHeaderDate this (getLine editor j)); discriminate. }
    split; [reflexivity|]. split; [reflexivity|]. split.
    + intros Hlist. rewrite Hlist in Hgate. exact Hgate.
    + exists j. split; [exact Hj|]. split; [|split; assumption].
      now apply (dated_line_in_range this editor).
  - intros [Hrate [Hlogged [Hlist [j [Hj [_ [Hdated Hplain]]]]]]].
    rewrite Hrate, Hlogged. simpl.
    assert (Hgate : useList (settings this) && listModeBlocks line = false).
    { destruct (useList (settings this)); [|reflexivity].
      simpl. now apply Hlist. }
    rewrite Hgate.
    apply lookAbove_dated with (j := j); [exact Hj| |exact Hplain].
    unfold isLogHeader.
    destruct (extractHeaderDate this (getLine editor j)); congruence.
Qed.

(** X1: [shouldInsertLine] answers true exactly in an insertion context:
    rate limit over, cursor line not logged, list mode not in the way, and
    above the cursor a dated header with no header line in between. *)
Theorem X1_shouldInsertLine_iff (now : Z) :
  shouldInsertLine this editor now = true <->
  insertionContext this editor now.
Proof. apply shouldInsertLine_context. Qed.

(** X2: lines below the cursor never matter to the detector: two editors
    with the same cursor line and the same lines down to it get the same
    answer. *)
Theorem X2_detector_reads_upwards (editor' : Editor) (now : Z) :
  pos_line (cursor editor') = pos_line (cursor editor) ->
  (forall i, i <= pos_line (cursor editor) ->
     getLine editor' i = getLine editor i) ->
  shouldInsertLine this editor' now = shouldInsertLine this editor now.
Proof.
  intros Hcursor Hlines. unfold shouldInsertLine, getCursor.
  rewrite Hcursor, (Hlines _ (Nat.le_refl _)).
  assert (Hscan : forall n, n <= pos_line (cursor editor) ->
            lookAbove this editor' n = lookAbove this editor n).
  { induction n as [|n IH]; intros Hn; [reflexivity|].
    simpl. rewrite Hlines by lia. rewrite IH by lia. reflexivity. }
  now rewrite Hscan.
Qed.


End DetectorBackwards.

(* ===================================================================== *)
(** ** Beyond the claims: the status bar and the edit event *)
(* ===================================================================== *)

Section StatusAndEvents.

Context {DF : DateFormatter}.

Variable this : TimelogPlugin.

Lemma hasDatedFrom_iff (rest : list jsstring) :
  hasDatedFrom this rest = true <->
  exists text, In text rest /\ extractHeaderDate this text <> None.
Proof.
  induction rest as [|text rest IH]; simpl.
  - split; [discriminate|intros [t [[] _]]].
  - destruct (extractHeaderDate this text) as [d|] eqn:Hd.
    + split; [|reflexivity]. intros _. exists text.
      split; [now left|congruence].
    + rewrite IH. split.
      * intros [t [Hin Ht]]. exists t. split; [now right|exact Ht].
      * intros [t [[<-|Hin] Ht]]; [congruence|]. now exists t.
Qed.

Lemma hasDatedHeader_lines (editor : Editor) :
  hasDatedHeader this editor = true <->
  exists i, i < lineCount editor
            /\ extractHeaderDate this (getLine editor i) <> None.
Proof.
  unfold hasDatedHeader. rewrite hasDatedFrom_iff. split.
  - intros [text [Hin Hd]]. destruct (In_nth _ _ [] Hin) as [i [Hi Hnth]].
    exists i. split; [exact Hi|]. unfold getLine.
    intros Hnone. apply Hd. rewrite <- Hnth. exact Hnone.
  - intros [i [Hi Hd]]. exists (getLine editor i). split; [|exact Hd].
    now apply nth_In.
Qed.

(** X4: [hasDatedHeader] is true exactly when some line of the document
    has a date, which is exactly when [findLatestDatedHeader] finds a
    line: the status bar and the jump command agree on every document. *)
Theorem X4_hasDatedHeader_iff (editor : Editor) :
  (hasDatedHeader this editor = true <->
   exists i, i < lineCount editor
             /\ extractHeaderDate this (getLine editor i) <> None)
  /\ (hasDatedHeader this editor = true <->
      findLatestDatedHeader this editor <> None).
Proof.
  split; [apply hasDatedHeader_lines|].
  rewrite hasDatedHeader_lines. split.
  - intros [i [Hi Hd]] Hnone.
    rewrite findLatestDatedHeader_none in Hnone. now apply Hd, Hnone.
  - intros Hfound.
    destruct (findLatestDatedHeader this editor) as [b|] eqn:Hfind;
      [|congruence].
    destruct (findLatestDatedHeader_found _ _ _ Hfind)
      as [Hb [latest [Hlatest _]]].
    exists b. split; [exact Hb|congruence].
Qed.

(** X5: [updateStatusBar] does nothing without the element; with it, the
    bar is shown exactly when there is an editor to look at (the one
    passed, else the active one) and one of its lines is a dated header,
    and then the text is the label with the interval; a bar that is
    hidden keeps the text it had. *)
Theorem X5_status_bar (el : StatusBarItem)
  (editor workspaceEditor : option Editor) :
  let looked :=
    match editor with Some e => Some e | None => workspaceEditor end in
  updateStatusBar this None editor workspaceEditor = None
  /\ exists el',
       updateStatusBar this (Some el) editor workspaceEditor = Some el'
       /\ (style_display el' = [] /\ bar_text el' = statusLabel this
           \/ style_display el' = str "none" /\ bar_text el' = bar_text el)
       /\ (style_display el' = [] <->
           exists ed i, looked = Some ed /\ i < lineCount ed
             /\ extractHeaderDate this (getLine ed i) <> None).
Proof.
  intros looked. split; [reflexivity|].
  unfold updateStatusBar. fold looked.
  destruct looked as [ed|].
  - destruct (hasDatedHeader this ed) eqn:Hdated; simpl.
    + eexists. split; [reflexivity|]. simpl.
      split; [left; now split|]. split; [|reflexivity].
      intros _. apply hasDatedHeader_lines in Hdated.
      destruct Hdated as [i [Hi Hd]]. now exists ed, i.
    + eexists. split; [reflexivity|]. simpl.
      split; [right; now split|]. split; [discriminate|].
      intros [ed' [i [Heq [Hi Hd]]]]. inversion Heq. subst ed'.
      assert (hasDatedHeader this ed = true)
        by (apply hasDatedHeader_lines; now exists i).
      congruence.
  - eexists. split; [reflexivity|]. simpl.
    split; [right; now split|]. split; [discriminate|].
    intros [ed' [i [Heq _]]]. discriminate.
Qed.

Variable editor : Editor.

(** X6: an edit event changes the plugin and the editor only when the
    detector answers true, and then the status bar, if there is one, is
    shown with its label: nothing is inserted into a document while
    the bar is hidden. *)
Theorem X6_event_inserts_under_shown_bar (el : StatusBarItem) (now : Z) :
  snd (onEditorChange this (Some el) editor now) <> Some (this, editor) ->
  shouldInsertLine this editor now = true
  /\ fst (onEditorChange this (Some el) editor now)
     = Some (mkStatusBar [] (statusLabel this)).
Proof.
  unfold onEditorChange.
  destruct (shouldInsertLine this editor now) eqn:Hshould; simpl;
    [|congruence].
  intros _. split; [reflexivity|].
  apply shouldInsertLine_context in Hshould.
  destruct Hshould as [_ [_ [_ [j [_ [Hj [Hdated _]]]]]]].
  assert (Hhas : hasDatedHeader this editor = true).
  { apply hasDatedHeader_lines. now exists j. }
  now rewrite Hhas.
Qed.

(** X7: after an edit event has inserted a prefix at [now], every edit
    event before [now] plus the interval leaves the plugin and the editor
    as they are, whatever the editor holds by then. *)
Theorem X7_one_insertion_per_interval (bar bar2 : option StatusBarItem)
  (now later : Z) (this1 : TimelogPlugin) (editor1 editor2 : Editor) :
  shouldInsertLine this editor now = true ->
  snd (onEditorChange this bar editor now) = Some (this1, editor1) ->
  (later - now < replacementInterval (settings this) * 1000)%Z ->
  snd (onEditorChange this1 bar2 editor2 later) = Some (this1, editor2).
Proof.
  intros Hshould Hevent Hsoon. unfold onEditorChange in Hevent.
  rewrite Hshould in Hevent. simpl in Hevent.
  unfold insertLogLine in Hevent.
  destruct (getFormattedLogPrefix this now) as [logPrefix|];
    [|discriminate].
  inversion Hevent as [[Hthis Heditor]]. clear Hevent.
  unfold onEditorChange.
  assert (Hblocked : isWithinInterval
                       (mkPlugin (settings this) (dailyNoteFormat this)
                          (Some now)) later = false).
  { unfold isWithinInterval. simpl.
    apply Z.ltb_lt in Hsoon. now rewrite Hsoon. }
  unfold shouldInsertLine. rewrite Hblocked. reflexivity.
Qed.

End StatusAndEvents.

(* ===================================================================== *)
(** ** Beyond the claims: what an insertion keeps *)
(* ===================================================================== *)

Lemma dropWhile_app (p : N -> bool) (s t : jsstring) :
  dropWhile p (s ++ t)
  = if forallb p s then dropWhile p t else dropWhile p s ++ t.
Proof.
  induction s as [|c s IH]; simpl; [reflexivity|].
  destruct (p c); simpl; [exact IH|reflexivity].
Qed.

Lemma dropWhile_head (p : N -> bool) (s : jsstring) (c : N)
  (rest : jsstring) :
  dropWhile p s = c :: rest -> p c = false.
Proof.
  induction s as [|d s IH]; simpl; [discriminate|].
  destruct (p d) eqn:Hd; [exact IH|].
  intros Heq. inversion Heq. now subst.
Qed.

Lemma trimEnd_cons (c : N) (s : jsstring) :
  isWhiteSpace c = false -> trimEnd (c :: s) = c :: trimEnd s.
Proof.
  intros Hc. unfold trimEnd. simpl. rewrite dropWhile_app.
  destruct (forallb isWhiteSpace (rev s)) eqn:Hall.
  - simpl. rewrite Hc.
    assert (Hnil : dropWhile isWhiteSpace (rev s) = []).
    { clear Hc. induction (rev s) as [|d r IH]; [reflexivity|].
      simpl in *. apply andb_prop in Hall. destruct Hall as [Hd Hr].
      rewrite Hd. now apply IH. }
    now rewrite Hnil.
  - now rewrite rev_app_distr.
Qed.



Lemma skipn_cons_nth (lines : list jsstring) :
  forall n, n < List.length lines ->
  skipn n lines = nth n lines [] :: skipn (S n) lines.
Proof.
  induction lines as [|l lines IH]; intros n Hn; simpl in Hn; [lia|].
  destruct n as [|n]; [reflexivity|].
  simpl. apply IH. lia.
Qed.





Section InsertionKeeps.

Context {DF : DateFormatter}.

Variable this : TimelogPlugin.

(** The scanning loops run through a document part by part. *)
Lemma latestFrom_app (front back : list jsstring) :
  forall n acc,
  latestFrom this (front ++ back) n acc
  = latestFrom this back (n + List.length front)
      (latestFrom this front n acc).
Proof.
  induction front as [|text front IH]; intros n acc; simpl.
  - now rewrite Nat.add_0_r.
  - destruct (extractHeaderDate this text); rewrite IH; f_equal; lia.
Qed.



Variable editor : Editor.

(** X8: an insertion keeps the editor sound: the line count stays, the
    cursor stays on its line and within its text, which has grown by the
    length of the prefix, and no line holds a line feed. *)
Theorem X8_insertion_keeps_editor_sound (now : Z) (logPrefix : jsstring)
  (this' : TimelogPlugin) (editor' : Editor) :
  wellFormed editor -> linesAreLines editor -> cursorInLine editor ->
  getFormattedLogPrefix this now = Some logPrefix ->
  hasLineFeed logPrefix = false ->
  insertLogLine this editor now = Some (this', editor') ->
  let n := pos_line (cursor editor) in
  lineCount editor' = lineCount editor
  /\ wellFormed editor' /\ linesAreLines editor' /\ cursorInLine editor'
  /\ List.length (getLine editor' n)
     = List.length (getLine editor n) + List.length logPrefix + 6.
Proof.
  intros Hcursor Hlines Hcolumn Hprefix Hfeed Hrun n.
  rewrite (insertLogLine_run this editor now logPrefix Hprefix) in Hrun.
  fold n in Hrun.
  set (line := getLine editor n) in *.
  set (offset := Nat.min (Z.to_nat (insertionOffset line))
                   (List.length line)) in *.
  set (new := firstn offset line ++ logHeaderOf logPrefix
                ++ skipn offset line) in *.
  assert (Hnew : hasLineFeed new = false).
  { subst new. rewrite !hasLineFeed_app.
    rewrite hasLineFeed_firstn, hasLineFeed_skipn
      by (now apply getLine_lines).
    now rewrite logHeaderOf_line_feed, Hfeed. }
  rewrite (splitLines_single _ Hnew) in Hrun.
  assert (Heditor :
            editor'
            = mkEditor
                (firstn n (doc editor) ++ [new] ++ skipn (S n) (doc editor))
                (mkPos n (pos_ch (cursor editor)
                          + List.length (logHeaderOf logPrefix)))
                (viewport editor)) by (now inversion Hrun).
  assert (Hthis :
            this' = mkPlugin (settings this) (dailyNoteFormat this)
                      (Some now)) by (now inversion Hrun).
  clear Hrun. subst this' editor'.
  unfold wellFormed, lineCount in Hcursor. fold n in Hcursor.
  unfold wellFormed, linesAreLines, cursorInLine, lineCount, getLine.
  cbn [doc cursor pos_line pos_ch].
  assert (Hlength : List.length new
                    = List.length line + List.length logPrefix + 6).
  { subst new. rewrite !length_app, length_firstn, length_skipn.
    unfold logHeaderOf. rewrite !length_app. simpl. lia. }
  rewrite length_replaced by exact Hcursor.
  rewrite nth_replaced by exact Hcursor. rewrite Nat.eqb_refl.
  split; [reflexivity|]. split; [exact Hcursor|]. split; [|split].
  - unfold linesAreLines in Hlines.
    rewrite <- (firstn_skipn n (doc editor)) in Hlines.
    apply Forall_app in Hlines. destruct Hlines as [Habove Hrest].
    apply Forall_app. split; [exact Habove|].
    apply Forall_app. split; [now constructor|].
    rewrite (skipn_cons_nth _ n Hcursor) in Hrest. now inversion Hrest.
  - unfold cursorInLine in Hcolumn. fold n line in Hcolumn.
    rewrite Hlength. unfold logHeaderOf. rewrite !length_app. simpl. lia.
  - exact Hlength.
Qed.



End InsertionKeeps.

(* ===================================================================== *)
(** ** Beyond the claims: the jump command, run again *)
(* ===================================================================== *)

Section JumpAgain.

Context {DF : DateFormatter}.

Variable this : TimelogPlugin.

(** The editor the jump leaves when there is a header to jump to. *)
Lemma jump_found (editor : Editor) (target : nat) :
  linesAreLines editor ->
  findLatestDatedHeader this editor = Some target ->
  jumpToLatestLogHeader this editor
  = (mkEditor
       (if Nat.eqb (S target) (lineCount editor)
        then doc editor ++ [[]] else doc editor)
       (mkPos (S target) 0)
       (Some (mkPos (S target) 0, mkPos (S target) 0)),
     []).
Proof.
  intros Hlines Hfind.
  destruct (findLatestDatedHeader_found _ _ _ Hfind) as [Hlt _].
  unfold jumpToLatestLogHeader. rewrite Hfind.
  replace (target + 1) with (S target) by lia.
  destruct (Nat.eqb_spec (S target) (lineCount editor)) as [Hlast|Hmore].
  - assert (Hleb : (lineCount editor <=? S target) = true)
      by (apply Nat.leb_le; lia).
    rewrite Hleb.
    set (editor1 := replaceRange [10%N]
                      (mkPos target (List.length (getLine editor target)))
                      editor).
    assert (Hdoc : doc editor1 = doc editor ++ [[]]).
    { subst editor1.
      rewrite replaceRange_line_end by now apply getLine_lines.
      unfold lineCount in Hlast.
      rewrite (skipn_all2 (doc editor)) by lia.
      rewrite app_nil_r.
      change [getLine editor target; []]
        with ([getLine editor target] ++ [[]]).
      rewrite app_assoc. f_equal. now apply firstn_with_last. }
    assert (Hcount : lineCount editor1 = S (S target)).
    { unfold lineCount in *. rewrite Hdoc, length_app. simpl. lia. }
    rewrite Hcount.
    replace (Nat.min (S target) (S (S target) - 1)) with (S target) by lia.
    unfold scrollIntoView, setCursor. cbn [doc cursor viewport].
    now rewrite Hdoc.
  - assert (Hleb : (lineCount editor <=? S target) = false)
      by (apply Nat.leb_gt; unfold lineCount in *; lia).
    rewrite Hleb.
    replace (Nat.min (S target) (lineCount editor - 1))
      with (S target) by (unfold lineCount in *; lia).
    reflexivity.
Qed.

(** An empty line added at the end changes no scan. *)
Lemma findLatestDatedHeader_empty_line (lines : list jsstring)
  (c : Position) (v v' : option (Position * Position)) (c' : Position) :
  findLatestDatedHeader this (mkEditor (lines ++ [[]]) c v)
  = findLatestDatedHeader this (mkEditor lines c' v').
Proof.
  unfold findLatestDatedHeader. cbn [doc].
  rewrite latestFrom_app. reflexivity.
Qed.

(** X11: the jump command is idempotent: run on the editor it has left,
    it leaves the same editor and shows the same notices. *)
Theorem X11_jump_twice (editor : Editor) :
  linesAreLines editor ->
  jumpToLatestLogHeader this (fst (jumpToLatestLogHeader this editor))
  = jumpToLatestLogHeader this editor.
Proof.
  intros Hlines.
  destruct (findLatestDatedHeader this editor) as [target|] eqn:Hfind.
  - rewrite (jump_found editor target Hlines Hfind). cbn [fst].
    destruct (findLatestDatedHeader_found _ _ _ Hfind) as [Hlt _].
    set (c := mkPos (S target) 0).
    destruct (Nat.eqb_spec (S target) (lineCount editor)) as [Hlast|Hmore].
    + set (after := mkEditor (doc editor ++ [[]]) c (Some (c, c))).
      assert (Hfind' : findLatestDatedHeader this after = Some target).
      { subst after.
        rewrite (findLatestDatedHeader_empty_line (doc editor) c
                   (Some (c, c)) (viewport editor) (cursor editor)).
        now destruct editor. }
      assert (Hlines' : linesAreLines after).
      { unfold linesAreLines, after. cbn [doc]. apply Forall_app.
        split; [exact Hlines|]. now constructor. }
      rewrite (jump_found after target Hlines' Hfind').
      assert (Hcount : lineCount after = S (S target)).
      { unfold lineCount, after in *. cbn [doc]. rewrite length_app.
        simpl. lia. }
      rewrite Hcount.
      destruct (Nat.eqb_spec (S target) (S (S target))) as [Habs|_]; [lia|].
      reflexivity.
    + set (after := mkEditor (doc editor) c (Some (c, c))).
      assert (Hfind' : findLatestDatedHeader this after = Some target)
        by (now destruct editor).
      assert (Hlines' : linesAreLines after) by exact Hlines.
      rewrite (jump_found after target Hlines' Hfind').
      change (lineCount after) with (lineCount editor).
      destruct (Nat.eqb_spec (S target) (lineCount editor)); [lia|].
      reflexivity.
  - unfold jumpToLatestLogHeader. rewrite Hfind. cbn [fst].
    now rewrite Hfind.
Qed.

(** X12: the jump command keeps the editor sound and removes nothing:
    the lines it found are still there, in place, at most one line is
    added, no line holds a line feed, and the cursor is on a line and
    within its text. *)
Theorem X12_jump_keeps_editor_sound (editor : Editor) :
  linesAreLines editor -> wellFormed editor -> cursorInLine editor ->
  let after := fst (jumpToLatestLogHeader this editor) in
  firstn (lineCount editor) (doc after) = doc editor
  /\ lineCount after <= S (lineCount editor)
  /\ linesAreLines after /\ wellFormed after /\ cursorInLine after.
Proof.
  intros Hlines Hcursor Hcolumn after. subst after.
  destruct (findLatestDatedHeader this editor) as [target|] eqn:Hfind.
  - rewrite (jump_found editor target Hlines Hfind). cbn [fst].
    destruct (findLatestDatedHeader_found _ _ _ Hfind) as [Hlt _].
    unfold wellFormed, cursorInLine, linesAreLines, lineCount, getLine in *.
    cbn [doc cursor pos_line pos_ch].
    destruct (Nat.eqb_spec (S target) (List.length (doc editor)))
      as [Hlast|Hmore].
    + rewrite firstn_app, Nat.sub_diag, firstn_all, length_app. simpl.
      rewrite app_nil_r.
      repeat split; try lia.
      apply Forall_app. split; [exact Hlines|]. now constructor.
    + rewrite firstn_all. repeat split; try lia. exact Hlines.
  - unfold jumpToLatestLogHeader. rewrite Hfind. cbn [fst].
    unfold lineCount. rewrite firstn_all. repeat split; try assumption.
    lia.
Qed.

End JumpAgain.

(* ===================================================================== *)
(** ** Beyond the claims: what a header may look like *)
(* ===================================================================== *)

Lemma dropWhile_twice (p : N -> bool) (s : jsstring) :
  dropWhile p (dropWhile p s) = dropWhile p s.
Proof.
  induction s as [|c s IH]; simpl; [reflexivity|].
  destruct (p c) eqn:Hc; [exact IH|]. simpl. now rewrite Hc.
Qed.

Lemma trimEnd_twice (s : jsstring) : trimEnd (trimEnd s) = trimEnd s.
Proof.
  unfold trimEnd. now rewrite rev_involutive, dropWhile_twice.
Qed.

(** [trim] is idempotent. *)
Lemma trim_twice (s : jsstring) : trim (trim s) = trim s.
Proof.
  unfold trim.
  assert (Hstart : trimStart (trimEnd (trimStart s)) = trimEnd (trimStart s)).
  { destruct (trimStart s) as [|h r] eqn:Hs; [reflexivity|].
    unfold trimStart in Hs. apply dropWhile_head in Hs.
    rewrite trimEnd_cons by exact Hs.
    unfold trimStart. now apply dropWhile_head_false. }
  now rewrite Hstart, trimEnd_twice.
Qed.

(** Behind a text that ends with no white space, [trimEnd] removes from
    the rest only. *)
Lemma trimEnd_behind (s tail : jsstring) (e : N) :
  isWhiteSpace e = false ->
  exists tail', trimEnd ((s ++ [e]) ++ tail) = (s ++ [e]) ++ tail'.
Proof.
  intros He. unfold trimEnd. rewrite !rev_app_distr. simpl.
  rewrite dropWhile_app.
  destruct (forallb isWhiteSpace (rev tail)).
  - exists []. simpl. rewrite He. simpl.
    now rewrite rev_involutive, app_nil_r.
  - exists (rev (dropWhile isWhiteSpace (rev tail))).
    rewrite rev_app_distr. simpl. now rewrite rev_involutive.
Qed.

Lemma trim_behind (c e : N) (s tail : jsstring) :
  isWhiteSpace c = false -> isWhiteSpace e = false ->
  exists tail', trim ((c :: s ++ [e]) ++ tail) = (c :: s ++ [e]) ++ tail'.
Proof.
  intros Hc He. unfold trim, trimStart.
  change ((c :: s ++ [e]) ++ tail) with (c :: (s ++ [e]) ++ tail).
  rewrite dropWhile_head_false by exact Hc.
  change (c :: (s ++ [e]) ++ tail) with (((c :: s) ++ [e]) ++ tail).
  now apply trimEnd_behind.
Qed.

(** The link pattern takes the text up to the first [ ]] ], whatever
    follows. *)
Lemma linkBody_until_close (x tail : jsstring) :
  x <> [] -> plainAlias x = true ->
  linkBody (x ++ str "]]" ++ tail) = Some x.
Proof.
  unfold plainAlias.
  induction x as [|c x IH]; [congruence|]. intros _ Hall.
  simpl in Hall. apply andb_prop in Hall. destruct Hall as [Hc Hx].
  apply negb_true_iff, orb_false_elim in Hc. destruct Hc as [Hlt Hclose].
  change ((c :: x) ++ str "]]" ++ tail) with (c :: (x ++ str "]]" ++ tail)).
  cbn [linkBody]. rewrite Hlt.
  destruct x as [|d x]; [reflexivity|].
  assert (Hstart : startsWith ((d :: x) ++ str "]]" ++ tail) (str "]]")
                   = false).
  { simpl in Hx. apply andb_prop in Hx. destruct Hx as [Hd _].
    apply negb_true_iff, orb_false_elim in Hd. destruct Hd as [_ Hd].
    cbn. unfold chClose in Hd. now rewrite Hd. }
  rewrite Hstart, IH; [reflexivity|congruence|exact Hx].
Qed.

Section HeaderShapes.

Context {DF : DateFormatter}.

Variable this : TimelogPlugin.

(** X13: the date of a header does not depend on the white space around
    the line, nor on the number of [#] it starts with. *)
Theorem X13_header_date_invariance (line : jsstring) :
  extractHeaderDate this (trim line) = extractHeaderDate this line
  /\ extractHeaderDate this (chHash :: chHash :: line)
     = extractHeaderDate this (chHash :: line).
Proof.
  split.
  - unfold extractHeaderDate. now rewrite trim_twice.
  - unfold extractHeaderDate, trim, trimStart.
    rewrite !dropWhile_head_false by reflexivity.
    rewrite !trimEnd_cons by reflexivity.
    reflexivity.
Qed.

Lemma header_with_title (inner tail : jsstring) :
  inner <> [] -> plainAlias inner = true ->
  extractHeaderDate this (str "## [[" ++ inner ++ str "]]" ++ tail)
  = momentStrict (splitHead chPipe inner) (dailyNoteFormat this).
Proof.
  intros Hne Hinner. unfold extractHeaderDate.
  assert (Hline : str "## [[" ++ inner ++ str "]]" ++ tail
                  = (chHash :: (str "# [[" ++ inner ++ [chClose])
                       ++ [chClose]) ++ tail).
  { cbn. rewrite <- !app_assoc. reflexivity. }
  rewrite Hline.
  destruct (trim_behind chHash chClose (str "# [[" ++ inner ++ [chClose])
              tail eq_refl eq_refl) as [tail1 Htrim].
  rewrite Htrim.
  change (startsWith
            ((chHash :: (str "# [[" ++ inner ++ [chClose]) ++ [chClose])
               ++ tail1) [chHash]) with true.
  cbn [negb].
  assert (Hstrip :
            stripHeadingMarkers
              ((chHash :: (str "# [[" ++ inner ++ [chClose]) ++ [chClose])
                 ++ tail1)
            = (chOpen :: (chOpen :: inner ++ [chClose]) ++ [chClose])
                ++ tail1) by reflexivity.
  rewrite Hstrip.
  destruct (trim_behind chOpen chClose (chOpen :: inner ++ [chClose])
              tail1 eq_refl eq_refl) as [tail2 Htrim2].
  rewrite Htrim2.
  assert (Hcontent :
            (chOpen :: (chOpen :: inner ++ [chClose]) ++ [chClose]) ++ tail2
            = chOpen :: chOpen :: inner ++ str "]]" ++ tail2).
  { cbn. rewrite <- !app_assoc. reflexivity. }
  rewrite Hcontent.
  rewrite (linkMatch_open _ inner); [reflexivity|].
  now apply linkBody_until_close.
Qed.

(** X14: a header [## [[inner]]] followed by any text has the date of the
    inner text before its first pipe: a title behind the link does not
    count.  The inner text is not empty and holds no line terminator and
    no closing bracket. *)
Theorem X14_title_behind_link (inner tail : jsstring) :
  inner <> [] -> plainAlias inner = true ->
  extractHeaderDate this (str "## [[" ++ inner ++ str "]]" ++ tail)
  = momentStrict (splitHead chPipe inner) (dailyNoteFormat this).
Proof. apply header_with_title. Qed.

End HeaderShapes.

(* ===================================================================== *)
(** ** Beyond the claims: Start Log Entry *)
(* ===================================================================== *)





Section StartLogEntry.

Context {DF : DateFormatter}.

Variable this : TimelogPlugin.
Variable editor : Editor.


End StartLogEntry.

(* ===================================================================== *)
(** ** Beyond the claims: the guarded [insertLogLine] *)
(* ===================================================================== *)

Section GuardedInsertion.

Context {DF : DateFormatter}.

Variable this : TimelogPlugin.
Variable editor : Editor.

(** X16: the guarded [insertLogLine] answers false and leaves the editor
    as it is on a line whose trimmed text is longer than two units, and,
    in list mode, on a line without a star.  Else it answers true: without
    a star the prefix goes in at offset 0, and with one the editor it
    leaves is the one the present [insertLogLine] leaves. *)
Theorem X16_guarded_insertion (now : Z) (logPrefix : jsstring) :
  getFormattedLogPrefix this now = Some logPrefix ->
  let n := pos_line (cursor editor) in
  let line := getLine editor n in
  (2 < List.length (trim line) ->
   Guarded.insertLogLine this editor now = Some (false, editor))
  /\ (useList (settings this) = true -> ~ In chStar line ->
      Guarded.insertLogLine this editor now = Some (false, editor))
  /\ (List.length (trim line) <= 2 -> useList (settings this) = false ->
      ~ In chStar line ->
      exists editor',
        Guarded.insertLogLine this editor now = Some (true, editor')
        /\ doc editor'
           = firstn n (doc editor)
               ++ splitLines (logHeaderOf logPrefix ++ line)
               ++ skipn (S n) (doc editor))
  /\ (List.length (trim line) <= 2 -> In chStar line ->
      exists this' editor',
        Guarded.insertLogLine this editor now = Some (true, editor')
        /\ insertLogLine this editor now = Some (this', editor')).
Proof.
  intros Hprefix n line. unfold Guarded.insertLogLine, getCursor.
  rewrite Hprefix. fold n line.
  split; [|split; [|split]].
  - intros Hlong. apply Nat.ltb_lt in Hlong. now rewrite Hlong.
  - intros Hlist Hnone. apply indexOf_absent in Hnone.
    rewrite Hlist, Hnone.
    now destruct (2 <? List.length (trim line)).
  - intros Hshort Hlist Hnone. apply indexOf_absent in Hnone.
    assert (Hnot : (2 <? List.length (trim line)) = false)
      by (apply Nat.ltb_ge; exact Hshort).
    rewrite Hnot, Hlist, Hnone. simpl.
    eexists. split; [reflexivity|].
    unfold replaceRange, setCursor, insertAt.
    cbn [doc pos_line pos_ch]. fold n line. reflexivity.
  - intros Hshort Hstar.
    assert (Hnot : (2 <? List.length (trim line)) = false)
      by (apply Nat.ltb_ge; exact Hshort).
    destruct (indexOf_first line chStar Hstar)
      as [before [after [_ [_ Hidx]]]].
    assert (Hfound : (indexOf line chStar <? 0)%Z = false)
      by (apply Z.ltb_ge; lia).
    assert (Hfound' : (0 <=? indexOf line chStar)%Z = true)
      by (apply Z.leb_le; lia).
    rewrite Hnot, Hfound, andb_false_r, Hfound'.
    unfold insertLogLine, getCursor. rewrite Hprefix.
    fold n line. unfold insertionOffset.
    eexists. eexists. split; reflexivity.
Qed.

End GuardedInsertion.

(* ===================================================================== *)
(** ** Beyond the claims: the navigator, pinned down *)
(* ===================================================================== *)

Section NavigatorPinned.

Context {DF : DateFormatter}.

Variable this : TimelogPlugin.
Variable editor : Editor.

(** X17: the properties of the claim on [findLatestDatedHeader] pin its
    result down: a line with a date that no dated line is after, and that
    is after every dated line above it, is the line returned. *)
Theorem X17_latest_header_unique (b : nat) (latest : ParsedDate) :
  b < lineCount editor ->
  extractHeaderDate this (getLine editor b) = Some latest ->
  (forall j d, j < lineCount editor ->
     extractHeaderDate this (getLine editor j) = Some d ->
     isAfter d latest = false) ->
  (forall j d, j < b ->
     extractHeaderDate this (getLine editor j) = Some d ->
     isAfter latest d = true) ->
  findLatestDatedHeader this editor = Some b.
Proof.
  intros Hb Hlatest Hmax Hfirst.
  destruct (findLatestDatedHeader this editor) as [b'|] eqn:Hfind.
  - destruct (findLatestDatedHeader_found _ _ _ Hfind)
      as [Hb' [latest' [Hlatest' [Hin [Hmax' Hfirst']]]]].
    f_equal.
    destruct (Nat.lt_trichotomy b' b) as [Hlt|[Heq|Hgt]]; [|exact Heq|].
    + exfalso. specialize (Hfirst b' latest' Hlt Hlatest').
      specialize (Hmax' (getLine editor b) latest).
      unfold isAfter in Hfirst. apply Z.ltb_lt in Hfirst.
      assert (valueOf latest <= valueOf latest')%Z.
      { apply Hmax'; [|exact Hlatest]. now apply nth_In. }
      lia.
    + exfalso. specialize (Hfirst' b latest Hgt Hlatest).
      specialize (Hmax b' latest' Hb' Hlatest').
      unfold isAfter in Hmax. apply Z.ltb_ge in Hmax. lia.
  - exfalso. rewrite findLatestDatedHeader_none in Hfind.
    specialize (Hfind b Hb). congruence.
Qed.

(** X18: after a jump that found a header the cursor is in the section of
    that header: the detector answers true there as soon as the rate
    limit, the logged-line check and the list mode let it. *)
Theorem X18_jump_lands_in_section (target : nat) (now : Z) :
  linesAreLines editor ->
  findLatestDatedHeader this editor = Some target ->
  let after := fst (jumpToLatestLogHeader this editor) in
  let line := getLine after (S target) in
  pos_line (cursor after) = S target
  /\ (isWithinInterval this now = true ->
      isLoggedLine this line = false ->
      (useList (settings this) = true -> listModeBlocks line = false) ->
      shouldInsertLine this after now = true).
Proof.
  intros Hlines Hfind after line. subst after line.
  rewrite (jump_found this editor target Hlines Hfind). cbn [fst].
  set (after := mkEditor _ _ _).
  destruct (findLatestDatedHeader_found _ _ _ Hfind)
    as [Hlt [latest [Hlatest _]]].
  split; [reflexivity|].
  intros Hrate Hlogged Hlist.
  apply shouldInsertLine_context. unfold insertionContext.
  change (pos_line (cursor after)) with (S target).
  split; [exact Hrate|]. split; [exact Hlogged|]. split; [exact Hlist|].
  assert (Hkept : getLine after target = getLine editor target).
  { unfold getLine, after. cbn [doc].
    destruct (Nat.eqb (S target) (lineCount editor)); [|reflexivity].
    unfold lineCount in Hlt. now rewrite app_nth1 by exact Hlt. }
  exists target. split; [lia|]. split.
  - unfold after, lineCount in *. cbn [doc].
    destruct (Nat.eqb (S target) (List.length (doc editor)));
      [rewrite length_app|]; lia.
  - rewrite Hkept, Hlatest. split; [discriminate|].
    intros k Hk. lia.
Qed.

End NavigatorPinned.

(* ===================================================================== *)
(** ** Beyond the claims: the first plugin of main.ts *)
(* ===================================================================== *)

Section KeywordPlugin.

Variable toLocaleLowerCase : jsstring -> jsstring.
Variable toLocaleTimeString : Z -> jsstring.

Let isLogHeader := Keyword.isLogHeader toLocaleLowerCase.
Let lookAbove := Keyword.lookAbove toLocaleLowerCase.
Let isInsideLogConext := Keyword.isInsideLogConext toLocaleLowerCase.

Variable editor : Editor.

(** In this plugin a log header is a line that starts with [#], so the
    scan is settled by the nearest such line above the cursor. *)
Lemma keyword_lookAbove_iff (n : nat) :
  lookAbove editor n = true <->
  exists j, j < n /\ isLogHeader (getLine editor j) = true
            /\ forall k, j < k < n ->
                 Keyword.isNormalHeader (getLine editor k) = false.
Proof.
  subst lookAbove isLogHeader.
  induction n as [|n IH]; simpl.
  - split; [discriminate|intros [j [Hj _]]; lia].
  - destruct (Keyword.isLogHeader toLocaleLowerCase (getLine editor n))
      eqn:Hlog.
    + split; [|reflexivity]. intros _. exists n.
      split; [lia|]. split; [exact Hlog|]. intros k Hk. lia.
    + destruct (Keyword.isNormalHeader (getLine editor n)) eqn:Hnormal.
      * split; [discriminate|]. intros [j [Hj [Hdated Hplain]]].
        destruct (Nat.eq_dec j n) as [->|Hne]; [congruence|].
        specialize (Hplain n). rewrite Hplain in Hnormal by lia.
        discriminate.
      * rewrite IH. split.
        -- intros [j [Hj [Hdated Hplain]]]. exists j.
           split; [lia|]. split; [exact Hdated|].
           intros k Hk. destruct (Nat.eq_dec k n) as [->|Hne];
             [exact Hnormal|]. apply Hplain. lia.
        -- intros [j [Hj [Hdated Hplain]]].
           destruct (Nat.eq_dec j n) as [->|Hne]; [congruence|].
           exists j. split; [lia|]. split; [exact Hdated|].
           intros k Hk. apply Hplain. lia.
Qed.

Lemma keyword_context (this : Keyword.MyPlugin) (now : Z) :
  isInsideLogConext this editor now = true <->
  (forall last, Keyword.lastReplacement this = Some last ->
     (Keyword.replacementInterval (Keyword.settings this) * 1000
      <= now - last)%Z)
  /\ isLogHeader (getLine editor (pos_line (cursor editor))) = false
  /\ exists j, j < pos_line (cursor editor)
       /\ isLogHeader (getLine editor j) = true
       /\ forall k, j < k < pos_line (cursor editor) ->
            Keyword.isNormalHeader (getLine editor k) = false.
Proof.
  rewrite <- keyword_lookAbove_iff.
  subst isInsideLogConext isLogHeader lookAbove.
  unfold Keyword.isInsideLogConext, getCursor.
  set (line := getLine editor (pos_line (cursor editor))).
  set (limit := (Keyword.replacementInterval (Keyword.settings this)
                 * 1000)%Z).
  destruct (Keyword.lastReplacement this) as [last|].
  - destruct (now - last <? limit)%Z eqn:Hrate.
    + apply Z.ltb_lt in Hrate. split; [discriminate|].
      intros [Hlimit _]. specialize (Hlimit last eq_refl). lia.
    + apply Z.ltb_ge in Hrate.
      destruct (Keyword.isLogHeader toLocaleLowerCase line).
      * split; [discriminate|]. intros [_ [H _]]. discriminate.
      * split.
        -- intros Hscan. split; [|split; [reflexivity|exact Hscan]].
           intros l Hl. inversion Hl. now subst.
        -- intros [_ [_ Hscan]]. exact Hscan.
  - destruct (Keyword.isLogHeader toLocaleLowerCase line).
    + split; [discriminate|]. intros [_ [H _]]. discriminate.
    + split.
      * intros Hscan. split; [|split; [reflexivity|exact Hscan]].
        intros l Hl. discriminate.
      * intros [_ [_ Hscan]]. exact Hscan.
Qed.

(** X19: the first plugin answers that the cursor is inside a log exactly
    when the rate limit is over, the cursor line is no log header, and the
    nearest line above that starts with [#] is a log header. *)
Theorem X19_keyword_context (this : Keyword.MyPlugin) (now : Z) :
  isInsideLogConext this editor now = true <->
  (forall last, Keyword.lastReplacement this = Some last ->
     (Keyword.replacementInterval (Keyword.settings this) * 1000
      <= now - last)%Z)
  /\ isLogHeader (getLine editor (pos_line (cursor editor))) = false
  /\ exists j, j < pos_line (cursor editor)
       /\ isLogHeader (getLine editor j) = true
       /\ forall k, j < k < pos_line (cursor editor) ->
            Keyword.isNormalHeader (getLine editor k) = false.
Proof. apply keyword_context. Qed.

End KeywordPlugin.

Section KeywordStamps.

Variable toLocaleLowerCase : jsstring -> jsstring.
Variable toLocaleTimeString : Z -> jsstring.

(** The editor an insertion of the first plugin leaves. *)
Lemma keyword_insertLogLine_run (editor : Editor) (now : Z) :
  wellFormed editor -> linesAreLines editor ->
  hasLineFeed (toLocaleTimeString now) = false ->
  let n := pos_line (cursor editor) in
  let header := Keyword.logHeaderOf (toLocaleTimeString now) in
  Keyword.insertLogLine toLocaleTimeString editor now
  = mkEditor
      (firstn n (doc editor) ++ [header ++ getLine editor n]
         ++ skipn (S n) (doc editor))
      (mkPos n (pos_ch (cursor editor) + List.length header))
      (viewport editor).
Proof.
  intros Hcursor Hlines Hfeed n header.
  unfold Keyword.insertLogLine, replaceRange, setCursor, insertAt, getCursor.
  cbn [doc cursor viewport pos_line pos_ch]. fold n header.
  simpl Nat.min. cbn [firstn skipn app].
  rewrite splitLines_single; [reflexivity|].
  rewrite hasLineFeed_app. subst header. unfold Keyword.logHeaderOf.
  rewrite !hasLineFeed_app, Hfeed.
  now rewrite (getLine_lines editor n Hlines).
Qed.

Variable editor : Editor.

(** X20: the first plugin does not look whether the cursor line carries a
    prefix already: after an edit event has inserted into a line, the
    same editor is inside the log again once the interval is over, and
    the next edit event puts a second prefix before the first. *)
Theorem X20_keyword_stamps_again (this : Keyword.MyPlugin) (now later : Z) :
  wellFormed editor -> linesAreLines editor ->
  hasLineFeed (toLocaleTimeString now) = false ->
  hasLineFeed (toLocaleTimeString later) = false ->
  Keyword.isInsideLogConext toLocaleLowerCase this editor now = true ->
  (Keyword.replacementInterval (Keyword.settings this) * 1000
   <= later - now)%Z ->
  let event :=
    Keyword.onEditorChange toLocaleLowerCase toLocaleTimeString in
  let n := pos_line (cursor editor) in
  let first := event this editor now in
  let second := event (fst first) (snd first) later in
  getLine (snd first) n
  = Keyword.logHeaderOf (toLocaleTimeString now) ++ getLine editor n
  /\ getLine (snd second) n
     = Keyword.logHeaderOf (toLocaleTimeString later)
         ++ Keyword.logHeaderOf (toLocaleTimeString now)
         ++ getLine editor n.
Proof.
  intros Hcursor Hlines Hfeed Hfeed2 Hinside Hlater event n first second.
  subst second first event.
  assert (Hfirst :
            Keyword.onEditorChange toLocaleLowerCase toLocaleTimeString
              this editor now
            = (Keyword.mkPlugin (Keyword.settings this) (Some now),
               Keyword.insertLogLine toLocaleTimeString editor now)).
  { unfold Keyword.onEditorChange. now rewrite Hinside. }
  rewrite Hfirst. cbn [fst snd].
  rewrite (keyword_insertLogLine_run editor now Hcursor Hlines Hfeed).
  fold n. set (header := Keyword.logHeaderOf (toLocaleTimeString now)).
  set (line := getLine editor n).
  set (stamped := mkEditor _ _ _).
  unfold wellFormed, lineCount in Hcursor. fold n in Hcursor.
  assert (Hgets : forall i, getLine stamped i
                            = if Nat.eqb i n then header ++ line
                              else getLine editor i).
  { intros i. unfold getLine, stamped. cbn [doc].
    now apply nth_replaced. }
  assert (Hn : getLine stamped n = header ++ line)
    by (now rewrite Hgets, Nat.eqb_refl).
  split; [exact Hn|].
  assert (Hagain : Keyword.isInsideLogConext toLocaleLowerCase
                     (Keyword.mkPlugin (Keyword.settings this) (Some now))
                     stamped later = true).
  { apply (keyword_context toLocaleLowerCase) in Hinside.
    destruct Hinside as [_ [_ [j [Hj [Hlog Hplain]]]]].
    apply keyword_context. split; [|split].
    - intros last Hlast. cbn in Hlast. inversion Hlast. subst last.
      exact Hlater.
    - change (pos_line (cursor stamped)) with n. rewrite Hn. reflexivity.
    - change (pos_line (cursor stamped)) with n. exists j.
      split; [exact Hj|]. split.
      + rewrite Hgets. destruct (Nat.eqb_spec j n); [lia|exact Hlog].
      + intros k Hk. rewrite Hgets.
        destruct (Nat.eqb_spec k n); [lia|]. now apply Hplain. }
  unfold Keyword.onEditorChange. rewrite Hagain. cbn [snd].
  assert (Hcursor' : wellFormed stamped).
  { unfold wellFormed, lineCount, stamped. cbn [doc cursor pos_line].
    now rewrite length_replaced. }
  assert (Hlines' : linesAreLines stamped).
  { unfold linesAreLines, stamped. cbn [doc].
    unfold linesAreLines in Hlines.
    rewrite <- (firstn_skipn n (doc editor)) in Hlines.
    apply Forall_app in Hlines. destruct Hlines as [Habove Hrest].
    apply Forall_app. split; [exact Habove|].
    apply Forall_app. split.
    - constructor; [|constructor]. rewrite hasLineFeed_app.
      subst header. unfold Keyword.logHeaderOf.
      rewrite !hasLineFeed_app, Hfeed.
      rewrite (skipn_cons_nth _ n Hcursor) in Hrest.
      inversion Hrest as [|? ? Hhead _]. exact Hhead.
    - rewrite (skipn_cons_nth _ n Hcursor) in Hrest.
      now inversion Hrest. }
  rewrite (keyword_insertLogLine_run stamped later Hcursor' Hlines' Hfeed2).
  change (pos_line (cursor stamped)) with n. rewrite Hn.
  unfold getLine at 1. cbn [doc].
  assert (Hlen : n < List.length (doc stamped)).
  { unfold stamped. cbn [doc]. now rewrite length_replaced. }
  rewrite nth_replaced by exact Hlen. now rewrite Nat.eqb_refl.
Qed.

End KeywordStamps.

(* ===================================================================== *)
(** ** The further theorems at work on the examples *)
(* ===================================================================== *)

Lemma X1_shouldInsertLine_iff_witness :
  insertionContext (DF := Moment.formatter noon) plainPlugin notesThenDated
    noon.
Proof.
  apply (proj1 (X1_shouldInsertLine_iff (DF := Moment.formatter noon)
                  plainPlugin notesThenDated noon)).
  reflexivity.
Defined.

Lemma X2_detector_reads_upwards_witness :
  shouldInsertLine (DF := Moment.formatter noon) plainPlugin
    (editorOn (doc notesThenDated ++ [str "## [[2024-06-01]]"]) 2 0) noon
  = shouldInsertLine (DF := Moment.formatter noon) plainPlugin
      notesThenDated noon.
Proof.
  apply (X2_detector_reads_upwards (DF := Moment.formatter noon)).
  - reflexivity.
  - intros i Hi. destruct i as [|[|[|i]]]; try reflexivity.
    simpl in Hi. lia.
Defined.


Lemma X4_hasDatedHeader_iff_witness :
  findLatestDatedHeader (DF := Moment.formatter noon) plainPlugin threeDated
  <> None.
Proof.
  apply (proj1 (proj2 (X4_hasDatedHeader_iff (DF := Moment.formatter noon)
                         plainPlugin threeDated))).
  reflexivity.
Defined.

Lemma X6_event_inserts_under_shown_bar_witness :
  fst (onEditorChange (DF := Moment.formatter noon) plainPlugin
         (Some (mkStatusBar (str "none") [])) starItem noon)
  = Some (mkStatusBar [] (str "Logging active 30s")).
Proof.
  refine (proj2 (X6_event_inserts_under_shown_bar
                   (DF := Moment.formatter noon) plainPlugin starItem
                   (mkStatusBar (str "none") []) noon _)).
  vm_compute. discriminate.
Defined.

Lemma X7_one_insertion_per_interval_witness :
  exists this1 editor1,
    snd (onEditorChange (DF := Moment.formatter noon) plainPlugin None
           starItem noon) = Some (this1, editor1)
    /\ snd (onEditorChange (DF := Moment.formatter noon) this1 None
              notesThenDated (noon + 29000))
       = Some (this1, notesThenDated).
Proof.
  eexists. eexists. split; [reflexivity|].
  eapply (X7_one_insertion_per_interval (DF := Moment.formatter noon)
            plainPlugin starItem None None noon (noon + 29000)).
  - reflexivity.
  - reflexivity.
  - unfold noon. simpl. lia.
Defined.

Lemma X8_insertion_keeps_editor_sound_witness :
  exists this' editor',
    insertLogLine (DF := Moment.formatter noon) plainPlugin starItem noon
    = Some (this', editor')
    /\ wellFormed editor' /\ cursorInLine editor'.
Proof.
  eexists. eexists. split; [reflexivity|].
  assert (Hcursor : wellFormed starItem) by (cbv; repeat constructor).
  assert (Hlines : linesAreLines starItem) by (repeat constructor).
  assert (Hcolumn : cursorInLine starItem) by (cbv; repeat constructor).
  destruct (X8_insertion_keeps_editor_sound (DF := Moment.formatter noon)
              plainPlugin starItem noon (str "12:00") _ _
              Hcursor Hlines Hcolumn eq_refl eq_refl eq_refl)
    as [_ [Hsound [_ [Hin _]]]].
  split; [exact Hsound|exact Hin].
Defined.



Lemma X11_jump_twice_witness :
  jumpToLatestLogHeader (DF := Moment.formatter noon) plainPlugin
    (fst (jumpToLatestLogHeader (DF := Moment.formatter noon) plainPlugin
            loneHeader))
  = jumpToLatestLogHeader (DF := Moment.formatter noon) plainPlugin
      loneHeader.
Proof.
  apply (X11_jump_twice (DF := Moment.formatter noon)).
  repeat constructor.
Defined.

Lemma X12_jump_keeps_editor_sound_witness :
  wellFormed (fst (jumpToLatestLogHeader (DF := Moment.formatter noon)
                     plainPlugin loneHeader))
  /\ lineCount (fst (jumpToLatestLogHeader (DF := Moment.formatter noon)
                       plainPlugin loneHeader)) <= 2.
Proof.
  assert (Hlines : linesAreLines loneHeader) by (repeat constructor).
  assert (Hcursor : wellFormed loneHeader) by (cbv; repeat constructor).
  assert (Hcolumn : cursorInLine loneHeader) by (cbv; repeat constructor).
  destruct (X12_jump_keeps_editor_sound (DF := Moment.formatter noon)
              plainPlugin loneHeader Hlines Hcursor Hcolumn)
    as [_ [Hcount [_ [Hsound _]]]].
  split; [exact Hsound|exact Hcount].
Defined.

Lemma X14_title_behind_link_witness :
  extractHeaderDate (DF := Moment.formatter noon) plainPlugin
    (str "## [[" ++ str "2024-05-11" ++ str "]]"
       ++ str " - Undocumented REST API")
  = Some (Moment.mkDate 2024 5 11 0 0 0).
Proof.
  refine (X14_title_behind_link (DF := Moment.formatter noon) plainPlugin
            (str "2024-05-11") (str " - Undocumented REST API") _ _).
  - discriminate.
  - reflexivity.
Defined.


Lemma X16_guarded_insertion_witness :
  Guarded.insertLogLine (DF := Moment.formatter noon) plainPlugin
    (editorOn (datedItem (str "- item")) 1 6) noon
  = Some (false, editorOn (datedItem (str "- item")) 1 6).
Proof.
  refine (proj1 (X16_guarded_insertion (DF := Moment.formatter noon)
                   plainPlugin (editorOn (datedItem (str "- item")) 1 6)
                   noon (str "12:00") eq_refl) _).
  cbv. repeat constructor.
Defined.

Lemma X17_latest_header_unique_witness :
  findLatestDatedHeader (DF := Moment.formatter noon) plainPlugin threeDated
  = Some 1.
Proof.
  apply (X17_latest_header_unique (DF := Moment.formatter noon) plainPlugin
           threeDated 1 (Moment.mkDate 2024 6 1 0 0 0)).
  - cbv. repeat constructor.
  - reflexivity.
  - intros j d Hj. destruct j as [|[|[|[|j]]]];
      try (intros Hd; inversion Hd; reflexivity);
      try discriminate.
    unfold lineCount, threeDated, editorOn in Hj. simpl in Hj. lia.
  - intros j d Hj. destruct j as [|j]; [|lia].
    intros Hd. inversion Hd. reflexivity.
Defined.

Lemma X18_jump_lands_in_section_witness :
  shouldInsertLine (DF := Moment.formatter noon) plainPlugin
    (fst (jumpToLatestLogHeader (DF := Moment.formatter noon) plainPlugin
            loneHeader)) noon = true.
Proof.
  assert (Hlines : linesAreLines loneHeader) by (repeat constructor).
  refine (proj2 (X18_jump_lands_in_section (DF := Moment.formatter noon)
                   plainPlugin loneHeader 0 noon Hlines eq_refl) _ _ _).
  - reflexivity.
  - reflexivity.
  - discriminate.
Defined.

Lemma X19_keyword_context_witness :
  Keyword.isInsideLogConext asciiLower firstPlugin workLog noon = true.
Proof.
  apply (X19_keyword_context asciiLower workLog firstPlugin noon).
  split; [|split].
  - discriminate.
  - reflexivity.
  - exists 0. split; [simpl; lia|]. split; [reflexivity|].
    intros k Hk. simpl in Hk. lia.
Defined.

Lemma X20_keyword_stamps_again_witness :
  getLine
    (snd (Keyword.onEditorChange asciiLower noonText
            (fst (Keyword.onEditorChange asciiLower noonText firstPlugin
                    workLog noon))
            (snd (Keyword.onEditorChange asciiLower noonText firstPlugin
                    workLog noon))
            (noon + 5000))) 1
  = str "- **12:00 PM**: - **12:00 PM**: item".
Proof.
  assert (Hcursor : wellFormed workLog) by (cbv; repeat constructor).
  assert (Hlines : linesAreLines workLog) by (repeat constructor).
  refine (proj2 (X20_keyword_stamps_again asciiLower noonText workLog
                   firstPlugin noon (noon + 5000)
                   Hcursor Hlines eq_refl eq_refl eq_refl _)).
  unfold noon. simpl. lia.
Defined.
